(** * Turnilo: value formatter, measures-definition converter and
      dimension/measure panel layout.

    Shallow embedding of
    - [src/common/utils/formatter/formatter.ts] (module [Formatter]),
    - the measures-definition converter (module [MeasuresDefinition]),
    - the [DimensionMeasurePanel] component state (module [Panel]).

    JavaScript numbers are modelled by [number]: the three kinds of
    IEEE-754 values the code distinguishes ([NaN], the two infinities and
    finite values), with finite values idealised as rationals and the two
    zeros identified.  The tests and selections the code makes on numbers
    ([=== 0], [isNaN], [isFinite], [Math.abs], the sign of [b - a],
    [Math.min], [Math.max]) are exact on binary64 values, so the
    idealisation does not change their outcome; products, quotients and
    differences ([containerHeight * ratio], [n / scale],
    [containerHeight - dividerPosition]) are the exact ones, where
    binary64 rounds them, and no statement below relies on their digits.
    Strings are sequences of 8-bit code units.

    The modules [JS], [Formatter], [MeasuresDefinition] and [Panel] give
    the values the code computes when the functions it calls outside
    these files return; the module [Checked] follows the formatter again
    with the exceptions those functions and the code itself can raise. *)

From Stdlib Require Import ZArith QArith Qminmax Qabs.
From Stdlib Require Qcanon.
From Stdlib Require Import Bool List String Ascii DecimalString.
From Stdlib Require Import Permutation Sorted Lia Lqa.
From Equations Require Import Equations.
Import ListNotations.

Set Implicit Arguments.

(** ** JavaScript numbers *)

Module JS.

Inductive number : Type :=
| NaN
| Infinity (negative : bool)
| Finite (q : Q).

Definition isNaN (v : number) : bool :=
  match v with NaN => true | _ => false end.

Definition isFinite (v : number) : bool :=
  match v with Finite _ => true | _ => false end.

(** [v === 0] (true for both zeros, which the model identifies). *)
Definition strict_eq_zero (v : number) : bool :=
  match v with Finite q => Qeq_bool q 0 | _ => false end.

Definition Math_abs (v : number) : number :=
  match v with
  | NaN => NaN
  | Infinity _ => Infinity false
  | Finite q => Finite (Qabs q)
  end.

(** [a - b] *)
Definition sub (a b : number) : number :=
  match a, b with
  | NaN, _ | _, NaN => NaN
  | Infinity s, Infinity t => if Bool.eqb s t then NaN else Infinity s
  | Infinity s, Finite _ => Infinity s
  | Finite _, Infinity t => Infinity (negb t)
  | Finite x, Finite y => Finite (x - y)
  end.

(** [a / b]; the model identifies the two zeros, so a finite non-zero
    value divided by zero is left as the positive or negative infinity
    of the dividend's sign. *)
Definition div (a b : number) : number :=
  match a, b with
  | NaN, _ | _, NaN => NaN
  | Infinity _, Infinity _ => NaN
  | Infinity s, Finite y => Infinity (xorb s (negb (Qle_bool 0 y)))
  | Finite _, Infinity _ => Finite 0
  | Finite x, Finite y =>
      if Qeq_bool y 0
      then (if Qeq_bool x 0 then NaN else Infinity (negb (Qle_bool 0 x)))
      else Finite (x / y)
  end.

(** [v > 0] *)
Definition positive (v : number) : bool :=
  match v with
  | NaN => false
  | Infinity s => negb s
  | Finite q => negb (Qle_bool q 0)
  end.

(** [a < b] and [a <= b] *)
Definition ltb (a b : number) : bool := positive (sub b a).

Definition leb (a b : number) : bool :=
  match a, b with
  | NaN, _ | _, NaN => false
  | Infinity s, Infinity t => implb t s
  | Infinity s, Finite _ => s
  | Finite _, Infinity t => negb t
  | Finite x, Finite y => Qle_bool x y
  end.

(** [Array.prototype.sort(compareFn)]: the result is the stable
    arrangement in which [b] precedes [a] exactly when
    [compareFn(a, b) > 0]; written as a stable insertion sort. *)
Section Sort.
Variable compareFn : number -> number -> number.

Fixpoint sort_insert (x : number) (l : list number) : list number :=
  match l with
  | [] => [x]
  | y :: l' =>
      if positive (compareFn x y) then y :: sort_insert x l' else x :: l
  end.

Fixpoint Array_sort (l : list number) : list number :=
  match l with
  | [] => []
  | x :: l' => sort_insert x (Array_sort l')
  end.
End Sort.

(** [a * b] *)
Definition mul (a b : number) : number :=
  match a, b with
  | NaN, _ | _, NaN => NaN
  | Infinity s, Infinity t => Infinity (xorb s t)
  | Infinity s, Finite y | Finite y, Infinity s =>
      if Qeq_bool y 0 then NaN else Infinity (xorb s (negb (Qle_bool 0 y)))
  | Finite x, Finite y => Finite (x * y)
  end.

(** [Math.min(a, b)] and [Math.max(a, b)]: [NaN] as soon as one argument
    is [NaN]. *)
Definition Math_min (a b : number) : number :=
  match a, b with
  | NaN, _ | _, NaN => NaN
  | _, _ => if leb a b then a else b
  end.

Definition Math_max (a b : number) : number :=
  match a, b with
  | NaN, _ | _, NaN => NaN
  | _, _ => if leb a b then b else a
  end.

(** A collection size ([count()], [size()], [length]) as a number. *)
Definition of_nat (n : nat) : number := Finite (inject_Z (Z.of_nat n)).

(** [Math.ceil(k / 2)] for a non-negative integer [k]. *)
Definition Math_ceil_half (k : nat) : nat := Nat.div2 (S k).

(** Truthiness of a number: [0] and [NaN] are falsy. *)
Definition truthy (v : number) : bool :=
  negb (strict_eq_zero v || isNaN v).

(** Decimal digits of an integer, as template literals and [String(n)]
    print it. *)
Definition decimal (z : Z) : string := NilZero.string_of_int (Z.to_int z).

Section ToString.
(** [Number::toString] on finite values other than the integers up to
    2^53 in magnitude (which print as their digits): the shortest decimal
    that reads back as the same binary64 value, in exponent notation from
    10^21 on; it is left to the caller. *)
Variable fraction_toString : Q -> string.

(** [String(n)], ["" + n], [`${n}`] *)
Definition Number_toString (n : number) : string :=
  match n with
  | NaN => "NaN"
  | Infinity false => "Infinity"
  | Infinity true => "-Infinity"
  | Finite q =>
      let r := Qred q in
      if Pos.eqb (Qden r) 1 && Z.leb (Z.abs (Qnum r)) (2 ^ 53)
      then decimal (Qnum r)
      else fraction_toString q
  end%string.
End ToString.

End JS.

Import JS.

(** ** formatter.ts *)

Module Formatter.

(** *** getMiddleNumber *)

(** The guard of the loop body: [v === 0 || isNaN(v) || !isFinite(v)]. *)
Definition skipped (v : number) : bool :=
  strict_eq_zero v || isNaN v || negb (isFinite v).

(** The [for (let v of values)] loop, pushing onto [filteredAbsData]. *)
Definition collect (filteredAbsData : list number) (v : number) : list number :=
  if skipped v then filteredAbsData else filteredAbsData ++ [Math_abs v].

Definition filteredAbsData (values : list number) : list number :=
  fold_left collect values [].

Definition getMiddleNumber (values : list number) : number :=
  let data := filteredAbsData values in
  let n := List.length data in
  match n with
  | O => Finite 0
  | S _ =>
      let sorted := Array_sort (fun a b => sub b a) data in
      nth (Math_ceil_half (n - 1)) sorted NaN
  end.

(** *** formatterFromData *)

Local Open Scope string_scope.

Definition Formatter : Type := number -> string.

(** The table [scales]. *)
Definition scales_a : list (string * Q) :=
  [ ("", 1); ("k", 1000); ("m", 1000000); ("b", 1000000000);
    ("t", 1000000000000) ]%Q.

Definition scales_b : list (string * Q) :=
  [ ("B", 1); ("KB", 1024); ("MB", 1024 * 1024); ("GB", 1024 * 1024 * 1024);
    ("TB", 1024 * 1024 * 1024 * 1024);
    ("PB", 1024 * 1024 * 1024 * 1024 * 1024);
    ("EB", 1024 * 1024 * 1024 * 1024 * 1024 * 1024);
    ("ZB", 1024 * 1024 * 1024 * 1024 * 1024 * 1024 * 1024);
    ("YB", 1024 * 1024 * 1024 * 1024 * 1024 * 1024 * 1024 * 1024) ]%Q.

(** The two format types the pattern [[ab]] lets through. *)
Inductive FormatType : Type := type_a | type_b.

Definition FormatType_char (t : FormatType) : ascii :=
  match t with type_a => "a"%char | type_b => "b"%char end.

Definition FormatType_string (t : FormatType) : string :=
  String (FormatType_char t) "".

Definition FormatType_of_char (c : ascii) : option FormatType :=
  if Ascii.eqb c "a" then Some type_a
  else if Ascii.eqb c "b" then Some type_b
  else None.

Fixpoint assoc (key : string) (table : list (string * Q)) : option Q :=
  match table with
  | [] => None
  | (k, v) :: rest => if String.eqb k key then Some v else assoc key rest
  end.

(** [scales[formatType][unit]]; [None] stands for a result that is not a
    number ([undefined] for a unit outside the table), by which a
    division gives [NaN]. *)
Definition scales (formatType : FormatType) (unit : string) : option Q :=
  match formatType with
  | type_a => assoc unit scales_a
  | type_b => assoc unit scales_b
  end.

(** [n / scale] *)
Definition div_scale (n : number) (scale : option Q) : number :=
  match scale with
  | Some k => div n (Finite k)
  | None => NaN
  end.

(** The class [\s] on 8-bit code units: tab, line feed, vertical tab,
    form feed, carriage return, space and no-break space. *)
Definition is_whitespace (c : ascii) : bool :=
  let n := nat_of_ascii c in
  (Nat.leb 9 n && Nat.leb n 13) || Nat.eqb n 32 || Nat.eqb n 160.

(** [format.match(...)] against the anchored pattern of the source: a
    greedy run of non-white-space code units, an optional space, and a
    final [a] or [b].  The result holds the groups
    [(numberFormat, space, formatType)] of the match, if any.  A code unit
    that is not the last one belongs to the run when it is not white space
    and can only be the optional space otherwise. *)
Fixpoint format_match (format : string)
  : option (string * string * FormatType) :=
  match format with
  | "" => None
  | String c "" =>
      match FormatType_of_char c with
      | Some t => Some ("", "", t)
      | None => None
      end
  | String c rest =>
      if is_whitespace c then
        if Ascii.eqb c " " then
          match rest with
          | String d "" =>
              match FormatType_of_char d with
              | Some t => Some ("", " ", t)
              | None => None
              end
          | _ => None
          end
        else None
      else
        match format_match rest with
        | Some (numberFormat, space, t) => Some (String c numberFormat, space, t)
        | None => None
        end
  end.

(** [s.split(" ")] *)
Fixpoint split_space (s : string) : list string :=
  match s with
  | "" => [""]
  | String c rest =>
      if Ascii.eqb c " " then "" :: split_space rest
      else
        match split_space rest with
        | [] => [String c ""]
        | piece :: pieces => String c piece :: pieces
        end
  end.

(** [pieces[1] || ""] *)
Definition second_or_empty (pieces : list string) : string :=
  match nth_error pieces 1 with
  | Some piece => piece
  | None => ""
  end.

(** Truthiness of a string. *)
Definition nonempty (s : string) : bool :=
  match s with "" => false | _ => true end.

Section Numeral.
(** [numeral(n).format(fmt)] of the number-formatting library. *)
Variable numeral_format : number -> string -> string.

Definition formatterFromData (values : list number) (format : string)
  : Formatter :=
  match format_match format with
  | Some (numberFormat, space, formatType) =>
      let middle := getMiddleNumber values in
      let formatMiddle :=
        numeral_format middle ("0 " ++ FormatType_string formatType) in
      let unit := second_or_empty (split_space formatMiddle) in
      let scale := scales formatType unit in
      let append := if nonempty unit then space ++ unit else "" in
      fun n =>
        if isNaN n || negb (isFinite n) then "-"
        else numeral_format (div_scale n scale) numberFormat ++ append
  | None =>
      fun n =>
        if isNaN n || negb (isFinite n) then "-"
        else numeral_format n format
  end.
End Numeral.

(** *** Values and filter clauses *)

(** A date, as milliseconds since the epoch. *)
Definition Date : Type := Z.

Definition Timezone : Type := string.

Inductive DisplayYear : Type := ALWAYS | NEVER | IF_DIFF.

(** Plywood's [NumberRange] and [TimeRange]: a bound is [null] ([None])
    when the range is open on that side. *)
Record NumberRange : Type := mkNumberRange {
  start : option number;
  end_ : option number;
  bounds : string
}.

Record TimeRange : Type := mkTimeRange {
  time_start : option Date;
  time_end : option Date;
  time_bounds : string
}.

(** The element of a fixed time filter clause. *)
Record DateRange : Type := mkDateRange {
  date_start : Date;
  date_end : Date
}.

(** The run-time values [formatValue] can be handed ([value: any]).
    [VObject] is any other object, given by what its [toString] returns. *)
Inductive Value : Type :=
| VUndefined
| VNull
| VBoolean (b : bool)
| VNumber (n : number)
| VString (s : string)
| VNumberRange (r : NumberRange)
| VTimeRange (r : TimeRange)
| VObject (toString : string).

(** [bound || "any"] *)
Definition or_any (bound : option number) : Value :=
  match bound with
  | Some n => if truthy n then VNumber n else VString "any"
  | None => VString "any"
  end.

Definition rank (value : Value) : nat :=
  match value with VNumberRange _ => 1 | _ => 0 end.

Lemma rank_or_any (bound : option number) : rank (or_any bound) = 0%nat.
Proof.
  destruct bound as [n|]; simpl; [destruct (truthy n)|]; reflexivity.
Qed.

Inductive TimeFilterPeriod : Type := PREVIOUS | LATEST | CURRENT.

Inductive StringFilterAction : Type := IN | MATCH | CONTAINS.

(** A chronoshift [Duration], by the two methods the formatter calls. *)
Record Duration : Type := mkDuration {
  Duration_toString : string;
  getDescription : string
}.

(** The filter clauses; [reference] and [not] are not read by the
    formatter and are left out.  [values] lists the elements of the
    clause's collection in iteration order. *)
Inductive TimeFilterClause : Type :=
| FixedTimeFilterClause (values : list DateRange)
| RelativeTimeFilterClause (period : TimeFilterPeriod) (duration : Duration).

Inductive FilterClause : Type :=
| BooleanFilterClause (values : list Value)
| NumberFilterClause (values : list Value)
| StringFilterClause (action : StringFilterAction) (values : list Value)
| TimeFilter (clause : TimeFilterClause).

(** Modelled from the spec: [isTimeFilter] of the filter-clause model (a
    time filter is a fixed range or a relative period), together with the
    cast [clause as TimeFilterClause] that follows it. *)
Definition as_time_filter (clause : FilterClause) : option TimeFilterClause :=
  match clause with
  | TimeFilter c => Some c
  | _ => None
  end.

Definition isTimeFilter (clause : FilterClause) : bool :=
  match as_time_filter clause with Some _ => true | None => false end.

(** [clause.values] on the paths that read it: both callers return
    before this line for a time filter. *)
Definition clause_values (clause : FilterClause) : list Value :=
  match clause with
  | BooleanFilterClause values | NumberFilterClause values
  | StringFilterClause _ values => values
  | TimeFilter _ => []
  end.

(** [clause instanceof StringFilterClause && clause.action === action] *)
Definition is_string_action (clause : FilterClause) (a : StringFilterAction)
  : bool :=
  match clause, a with
  | StringFilterClause MATCH _, MATCH => true
  | StringFilterClause CONTAINS _, CONTAINS => true
  | StringFilterClause IN _, IN => true
  | _, _ => false
  end.

Record Dimension : Type := mkDimension { title : string }.

(** The entries of [STRINGS] the formatter reads. *)
Record Strings : Type := mkStrings {
  previous : string;
  current : string;
  latest : string;
  quarter : string
}.

(** [toLowerCase] on 8-bit code units: the letters A-Z and the Latin-1
    capitals. *)
Definition lower_char (c : ascii) : ascii :=
  let n := nat_of_ascii c in
  if (Nat.leb 65 n && Nat.leb n 90)
     || (Nat.leb 192 n && Nat.leb n 222 && negb (Nat.eqb n 215))
  then ascii_of_nat (n + 32) else c.

Fixpoint toLowerCase (s : string) : string :=
  match s with
  | "" => ""
  | String c rest => String (lower_char c) (toLowerCase rest)
  end.

Definition double_quote : string := String (ascii_of_nat 34) "".

(** The object [{ title, values }] that [getFormattedClause] returns. *)
Record FormattedClause : Type := mkFormattedClause {
  clause_title : string;
  clause_text : string
}.

Section Clauses.
Variable fraction_toString : Q -> string.
(** [formatTimeRange] of utils/time/time. *)
Variable formatTimeRange :
  TimeRange -> option Timezone -> option DisplayYear -> string.
(** [TimeRange.fromJS] on [clause.values.get(0)] ([None] when the
    collection is empty). *)
Variable TimeRange_fromJS : option DateRange -> TimeRange.
Variable STRINGS : Strings.

Equations? formatValue (value : Value) (timezone : option Timezone)
  (displayYear : option DisplayYear) : string by wf (rank value) lt :=
  formatValue (VNumberRange r) _ _ :=
    (* formatNumberRange(value) *)
    formatValue (or_any (start r)) None None ++ " to "
      ++ formatValue (or_any (end_ r)) None None;
  formatValue (VTimeRange r) timezone displayYear :=
    formatTimeRange r timezone displayYear;
  (* "" + value *)
  formatValue VUndefined _ _ := "undefined";
  formatValue VNull _ _ := "null";
  formatValue (VBoolean b) _ _ := if b then "true" else "false";
  formatValue (VNumber n) _ _ := Number_toString fraction_toString n;
  formatValue (VString s) _ _ := s;
  formatValue (VObject toString) _ _ := toString.
Proof. all: rewrite rank_or_any; simpl; lia. Qed.

Definition formatNumberRange (value : NumberRange) : string :=
  formatValue (or_any (start value)) None None ++ " to "
    ++ formatValue (or_any (end_ value)) None None.

Definition getQualifiedDurationDescription (duration : Duration) : string :=
  if String.eqb (Duration_toString duration) "P3M"
  then toLowerCase (quarter STRINGS)
  else getDescription duration.

Definition getFormattedTimeClauseValues (clause : TimeFilterClause)
  (timezone : Timezone) : string :=
  match clause with
  | FixedTimeFilterClause values =>
      formatTimeRange (TimeRange_fromJS (nth_error values 0))
        (Some timezone) (Some IF_DIFF)
  | RelativeTimeFilterClause period duration =>
      match period with
      | PREVIOUS =>
          previous STRINGS ++ " " ++ getQualifiedDurationDescription duration
      | CURRENT =>
          current STRINGS ++ " " ++ getQualifiedDurationDescription duration
      | LATEST =>
          latest STRINGS ++ " " ++ getQualifiedDurationDescription duration
      end
  end.

(** [setElements.first()] *)
Definition first (setElements : list Value) : Value :=
  match setElements with
  | [] => VUndefined
  | v :: _ => v
  end.

Definition getFilterClauseValues (clause : FilterClause)
  (timezone : Timezone) : string :=
  match as_time_filter clause with
  | Some timeClause => getFormattedTimeClauseValues timeClause timezone
  | None =>
    let setElements := clause_values clause in
    let values :=
      if Nat.ltb 1 (List.length setElements)
      then "(" ++ decimal (Z.of_nat (List.length setElements)) ++ ")"
      else formatValue (first setElements) None None in
    let values :=
      if is_string_action clause MATCH then "/" ++ values ++ "/"
      else values in
    let values :=
      if is_string_action clause CONTAINS
      then double_quote ++ values ++ double_quote
      else values in
    values
  end.

Definition getClauseLabel (clause : FilterClause) (dimension : Dimension)
  : string :=
  let dimensionTitle := title dimension in
  if isTimeFilter clause then ""
  else
    let delimiter :=
      if is_string_action clause MATCH || is_string_action clause CONTAINS
      then " ~" else ":" in
    let clauseValues := clause_values clause in
    if Nat.ltb 1 (List.length clauseValues) then dimensionTitle
    else dimensionTitle ++ delimiter.

Definition getFormattedClause (dimension : Dimension) (clause : FilterClause)
  (timezone : Timezone) : FormattedClause :=
  {| clause_title := getClauseLabel clause dimension;
     clause_text := getFilterClauseValues clause timezone |}.

(** [this] is the module, as in a call [formatter.formatFilterClause(...)]. *)
Definition formatFilterClause (dimension : Dimension) (clause : FilterClause)
  (timezone : Timezone) : string :=
  let fc := getFormattedClause dimension clause timezone in
  let title := clause_title fc in
  let values := clause_text fc in
  if nonempty title then title ++ " " ++ values else values.
End Clauses.

End Formatter.

Import Formatter.

(** ** Exceptions *)

(** How a call ends: with a value, or with an exception thrown. *)
Module Completion.

Inductive completion (A : Type) : Type :=
| Returns (value : A)
| Throws (error : string).

Arguments Returns {A} value.
Arguments Throws {A} error.

(** Evaluate [c], then [k] on its value; an exception ends both. *)
Definition bind {A B : Type} (c : completion A) (k : A -> completion B)
  : completion B :=
  match c with
  | Returns value => k value
  | Throws error => Throws error
  end.

Declare Scope completion_scope.
Delimit Scope completion_scope with completion.
Bind Scope completion_scope with completion.

Notation "x <- c ;; k" := (bind c (fun x => k))
  (at level 61, c at next level, right associativity) : completion_scope.

(** The [TypeError] of a call through [undefined]. *)
Definition TypeError : string := "TypeError"%string.

End Completion.

Import Completion.

(** The formatter once more, with what it calls outside this file able
    to throw, and [this] as the caller binds it. *)
Module Checked.

Local Open Scope string_scope.
Local Open Scope completion_scope.

Definition Formatter : Type := number -> completion string.

Section Numeral.
(** [numeral(n).format(fmt)] of the number-formatting library. *)
Variable numeral_format : number -> string -> completion string.

Definition formatterFromData (values : list number) (format : string)
  : completion Formatter :=
  match format_match format with
  | Some (numberFormat, space, formatType) =>
      let middle := getMiddleNumber values in
      formatMiddle <-
        numeral_format middle ("0 " ++ FormatType_string formatType) ;;
      let unit := second_or_empty (split_space formatMiddle) in
      let scale := scales formatType unit in
      let append := if nonempty unit then space ++ unit else "" in
      Returns
        (fun n =>
           if isNaN n || negb (isFinite n) then Returns "-"
           else
             formatted <- numeral_format (div_scale n scale) numberFormat ;;
             Returns (formatted ++ append))
  | None =>
      Returns
        (fun n =>
           if isNaN n || negb (isFinite n) then Returns "-"
           else numeral_format n format)
  end.
End Numeral.

Section Clauses.
Variable fraction_toString : Q -> string.
(** [formatTimeRange] of utils/time/time. *)
Variable formatTimeRange :
  TimeRange -> option Timezone -> option DisplayYear -> completion string.
(** [TimeRange.fromJS] on [clause.values.get(0)] ([None] when the
    collection is empty). *)
Variable TimeRange_fromJS : option DateRange -> completion TimeRange.
Variable STRINGS : Strings.

Equations? formatValue (value : Value) (timezone : option Timezone)
  (displayYear : option DisplayYear) : completion string
  by wf (rank value) lt :=
  formatValue (VNumberRange r) _ _ :=
    (* formatNumberRange(value) *)
    bind (formatValue (or_any (start r)) None None)
      (fun from =>
         bind (formatValue (or_any (end_ r)) None None)
           (fun to => Returns (from ++ " to " ++ to)));
  formatValue (VTimeRange r) timezone displayYear :=
    formatTimeRange r timezone displayYear;
  (* "" + value *)
  formatValue VUndefined _ _ := Returns "undefined";
  formatValue VNull _ _ := Returns "null";
  formatValue (VBoolean b) _ _ := Returns (if b then "true" else "false");
  formatValue (VNumber n) _ _ := Returns (Number_toString fraction_toString n);
  formatValue (VString s) _ _ := Returns s;
  formatValue (VObject toString) _ _ := Returns toString.
Proof. all: rewrite rank_or_any; simpl; lia. Qed.

Definition getFormattedTimeClauseValues (clause : TimeFilterClause)
  (timezone : Timezone) : completion string :=
  match clause with
  | FixedTimeFilterClause values =>
      range <- TimeRange_fromJS (nth_error values 0) ;;
      formatTimeRange range (Some timezone) (Some IF_DIFF)
  | RelativeTimeFilterClause period duration =>
      match period with
      | PREVIOUS =>
          Returns (previous STRINGS ++ " "
                     ++ getQualifiedDurationDescription STRINGS duration)
      | CURRENT =>
          Returns (current STRINGS ++ " "
                     ++ getQualifiedDurationDescription STRINGS duration)
      | LATEST =>
          Returns (latest STRINGS ++ " "
                     ++ getQualifiedDurationDescription STRINGS duration)
      end
  end.

Definition getFilterClauseValues (clause : FilterClause)
  (timezone : Timezone) : completion string :=
  match as_time_filter clause with
  | Some timeClause => getFormattedTimeClauseValues timeClause timezone
  | None =>
    let setElements := clause_values clause in
    values <-
      (if Nat.ltb 1 (List.length setElements)
       then Returns ("(" ++ decimal (Z.of_nat (List.length setElements)) ++ ")")
       else formatValue (first setElements) None None) ;;
    let values :=
      if is_string_action clause MATCH then "/" ++ values ++ "/"
      else values in
    let values :=
      if is_string_action clause CONTAINS
      then double_quote ++ values ++ double_quote
      else values in
    Returns values
  end.

Definition getFormattedClause (dimension : Dimension) (clause : FilterClause)
  (timezone : Timezone) : completion FormattedClause :=
  let title := getClauseLabel clause dimension in
  values <- getFilterClauseValues clause timezone ;;
  Returns {| clause_title := title; clause_text := values |}.

(** What [this] can give to [formatFilterClause]: the exports of the
    module, which hold [getFormattedClause]. *)
Record Exports : Type := mkExports {
  exports_getFormattedClause :
    Dimension -> FilterClause -> Timezone -> completion FormattedClause
}.

Definition exports : Exports :=
  {| exports_getFormattedClause := getFormattedClause |}.

(** [this] is [Some exports] in a call made through the module object and
    [None] ([undefined]) in a call of the function on its own, where
    reading [this.getFormattedClause] throws. *)
Definition formatFilterClause (this : option Exports) (dimension : Dimension)
  (clause : FilterClause) (timezone : Timezone) : completion string :=
  match this with
  | None => Throws TypeError
  | Some module =>
      formatted <- exports_getFormattedClause module dimension clause timezone ;;
      let title := clause_title formatted in
      let values := clause_text formatted in
      Returns (if nonempty title then title ++ " " ++ values else values)
  end.
End Clauses.

End Checked.

(** ** Measures-definition converter *)

Module MeasuresDefinition.

(** The insertion step of Immutable's [OrderedSet]: an element already
    present keeps its place, a new one goes last. *)
Definition add_element (elements : list string) (x : string) : list string :=
  if existsb (String.eqb x) elements then elements else elements ++ [x].

Lemma add_element_NoDup (elements : list string) (x : string) :
  NoDup elements -> NoDup (add_element elements x).
Proof.
  intros Hnd. unfold add_element.
  destruct (existsb (String.eqb x) elements) eqn:Hin; [exact Hnd|].
  apply NoDup_app; [exact Hnd|repeat constructor; simpl; tauto|].
  intros y Hy [<-|[]]. 
  assert (existsb (String.eqb x) elements = true) as Habs; [|congruence].
  apply existsb_exists. exists x. split; [exact Hy|apply String.eqb_refl].
Qed.

(** [OrderedSet<string>]: the elements in insertion order, each once. *)
Record OrderedSet : Type := mkOrderedSet {
  toArray : list string;
  toArray_NoDup : NoDup toArray
}.

Definition OrderedSet_empty : OrderedSet := mkOrderedSet (NoDup_nil string).

Definition OrderedSet_add (s : OrderedSet) (x : string) : OrderedSet :=
  mkOrderedSet (add_element_NoDup x (toArray_NoDup s)).

(** [OrderedSet.of(...values)] *)
Definition OrderedSet_of (values : list string) : OrderedSet :=
  fold_left OrderedSet_add values OrderedSet_empty.

(** The [Measures] record of the essence model. *)
Record Measures : Type := mkMeasures {
  isMulti : bool;
  single : string;
  multi : OrderedSet
}.

Record MeasuresDefinitionJS : Type := mkMeasuresDefinitionJS {
  js_isMulti : bool;
  js_single : string;
  js_multi : list string
}.

(** Modelled from the spec: [createMeasures] of the essence model, the
    factory of the [Measures] value object, which wraps the three fields
    it is given. *)
Definition createMeasures (isMulti : bool) (single : string)
  (multi : OrderedSet) : Measures :=
  {| isMulti := isMulti; single := single; multi := multi |}.

Definition fromEssenceMeasures (measures : Measures) : MeasuresDefinitionJS :=
  {| js_isMulti := isMulti measures;
     js_single := single measures;
     js_multi := toArray (multi measures) |}.

Definition toEssenceMeasures (measures : MeasuresDefinitionJS) : Measures :=
  createMeasures (js_isMulti measures) (js_single measures)
    (OrderedSet_of (js_multi measures)).

End MeasuresDefinition.

(** ** DimensionMeasurePanel *)

Module Panel.

Definition MIN_PANEL_SIZE : number := Finite 100.
Definition RESIZE_HANDLE_SIZE : number := Finite 12.

Record DimensionMeasurePanelState : Type := mkState {
  dividerPosition : number;
  containerHeight : number
}.

Record Constraints : Type := mkConstraints {
  minDividerPosition : number;
  maxDividerPosition : number
}.

Definition dividerConstraints (height : number) : Constraints :=
  {| minDividerPosition := Math_min MIN_PANEL_SIZE height;
     maxDividerPosition := Math_max (sub height MIN_PANEL_SIZE) (Finite 0) |}.

(** Modelled from the spec: [clamp] of utils/dom/dom, which brings its
    first argument into the interval given by the other two. *)
Definition clamp (n min max : number) : number :=
  Math_min (Math_max n min) max.

(** A DOM element, by its identity; what [getBoundingClientRect()]
    measures on it is given by the environment at the time of the call. *)
Definition Element : Type := nat.

(** The part of the props that the layout reads:
    [essence.dataCube.dimensions.size()] and
    [essence.dataCube.measures.size()]. *)
Record Props : Type := mkProps {
  dimensionsCount : nat;
  measuresCount : nat
}.

Record Component : Type := mkComponent {
  props : Props;
  state : DimensionMeasurePanelState;
  containerRef : option Element
}.

(** The component as constructed. *)
Definition initial (p : Props) : Component :=
  {| props := p;
     state := {| containerHeight := mul (Finite 2) MIN_PANEL_SIZE;
                 dividerPosition := MIN_PANEL_SIZE |};
     containerRef := None |}.

(** [height] is [container.getBoundingClientRect().height]. *)
Definition calculateInitialPosition (c : Component)
  (container : option Element) (height : number) : Component :=
  match container with
  | None => c
  | Some element =>
      let containerHeight := height in
      let dimensionsCount := dimensionsCount (props c) in
      let measuresCount := measuresCount (props c) in
      let ratio :=
        div (of_nat dimensionsCount) (of_nat (measuresCount + dimensionsCount)) in
      let cs := dividerConstraints containerHeight in
      let dividerPosition :=
        clamp (mul containerHeight ratio)
          (minDividerPosition cs) (maxDividerPosition cs) in
      {| props := props c;
         state := {| dividerPosition := dividerPosition;
                     containerHeight := containerHeight |};
         containerRef := Some element |}
  end.

Definition saveDividerPosition (c : Component) (dividerPosition : number)
  : Component :=
  {| props := props c;
     state := {| dividerPosition := dividerPosition;
                 containerHeight := containerHeight (state c) |};
     containerRef := containerRef c |}.

(** [height] is [this.containerRef.getBoundingClientRect().height];
    reading it through a null [containerRef] throws ([None]). *)
Definition saveContainerRect (c : Component) (height : number)
  : option Component :=
  match containerRef c with
  | None => None
  | Some _ =>
      Some {| props := props c;
              state := {| dividerPosition := dividerPosition (state c);
                          containerHeight := height |};
              containerRef := containerRef c |}
  end.

(** What [render] computes from the state. *)
Record Rendered : Type := mkRendered {
  dimensionListHeight : number;
  measureListHeight : number;
  showResizeHandle : bool;
  handle_min : number;
  handle_max : number;
  handle_initialValue : number
}.

Definition render (c : Component) : Rendered :=
  let dividerPosition := dividerPosition (state c) in
  let containerHeight := containerHeight (state c) in
  let cs := dividerConstraints containerHeight in
  {| dimensionListHeight := dividerPosition;
     measureListHeight :=
       sub (sub containerHeight dividerPosition) RESIZE_HANDLE_SIZE;
     showResizeHandle :=
       match containerRef c with Some _ => true | None => false end;
     handle_min := minDividerPosition cs;
     handle_max := maxDividerPosition cs;
     handle_initialValue := dividerPosition |}.

(** What happens to a mounted component. *)
Inductive Event : Type :=
| RefCallback (container : option Element) (height : number)
| Drag (raw : number)
| WindowResize (height : number).

(** Modelled from the spec: the [ResizeHandle] collaborator, which exists
    once it is rendered and reports a dragged value to [onResize] after
    clamping it to the [min] and [max] it was rendered with. *)
Definition ResizeHandle_drag (r : Rendered) (raw : number) : option number :=
  if showResizeHandle r then Some (clamp raw (handle_min r) (handle_max r))
  else None.

Definition step (c : Component) (e : Event) : option Component :=
  match e with
  | RefCallback container height =>
      Some (calculateInitialPosition c container height)
  | Drag raw =>
      match ResizeHandle_drag (render c) raw with
      | Some value => Some (saveDividerPosition c value)
      | None => None
      end
  | WindowResize height => saveContainerRect c height
  end.

Fixpoint run (c : Component) (events : list Event) : option Component :=
  match events with
  | [] => Some c
  | e :: rest =>
      match step c e with
      | Some c' => run c' rest
      | None => None
      end
  end.

(** [minDividerPosition <= dividerPosition <= maxDividerPosition] for the
    bounds of the current [containerHeight]. *)
Definition within_constraints (s : DimensionMeasurePanelState) : bool :=
  let cs := dividerConstraints (containerHeight s) in
  leb (minDividerPosition cs) (dividerPosition s)
  && leb (dividerPosition s) (maxDividerPosition cs).

(** The two bounds leave room for a position. *)
Definition consistent (height : number) : bool :=
  let cs := dividerConstraints height in
  leb (minDividerPosition cs) (maxDividerPosition cs).

(** What the DOM can report: a height is finite and not negative, a
    pointer coordinate is finite. *)
Definition dom_height (h : number) : bool :=
  match h with Finite q => Qle_bool 0 q | _ => false end.

Definition dom_event (e : Event) : bool :=
  match e with
  | RefCallback _ height | WindowResize height => dom_height height
  | Drag raw => isFinite raw
  end.

End Panel.

(** * Properties *)

(** ** Numbers *)

Section NumberFacts.

Lemma Qle_bool_false (x y : Q) : Qle_bool x y = false <-> (y < x)%Q.
Proof.
  split; intros H.
  - apply Qnot_le_lt. intros Hle. apply Qle_bool_iff in Hle. congruence.
  - destruct (Qle_bool x y) eqn:E; [|reflexivity].
    apply Qle_bool_iff in E. lra.
Qed.

Lemma positive_sub (x y : Q) :
  positive (sub (Finite y) (Finite x)) = negb (Qle_bool y x).
Proof.
  simpl. f_equal.
  destruct (Qle_bool y x) eqn:E.
  - apply Qle_bool_iff in E. apply Qle_bool_iff. lra.
  - apply Qle_bool_false in E. apply Qle_bool_false. lra.
Qed.

Lemma ltb_finite (x y : Q) : ltb (Finite x) (Finite y) = true <-> (x < y)%Q.
Proof.
  unfold ltb. rewrite positive_sub, negb_true_iff. apply Qle_bool_false.
Qed.

Lemma leb_finite (x y : Q) : leb (Finite x) (Finite y) = true <-> (x <= y)%Q.
Proof. simpl. apply Qle_bool_iff. Qed.

Lemma ltb_leb_false (a b : number) :
  isFinite a = true -> isFinite b = true -> ltb a b = true -> leb b a = false.
Proof.
  destruct a as [| |x], b as [| |y]; try discriminate. intros _ _ H.
  apply ltb_finite in H. simpl. apply Qle_bool_false. exact H.
Qed.

End NumberFacts.

(** ** getMiddleNumber *)

Section Sorting.

(** The comparator of [getMiddleNumber]: [(a, b) => b - a]. *)
Definition descending (a b : number) : number := sub b a.

(** [a] may stand before [b] in a descending arrangement. *)
Definition desc (a b : number) : Prop := leb b a = true.

Definition all_finite (l : list number) : Prop :=
  Forall (fun v => isFinite v = true) l.

Lemma sort_insert_perm (x : number) (l : list number) :
  Permutation (x :: l) (sort_insert descending x l).
Proof.
  induction l as [|y l IH]; simpl; [reflexivity|].
  destruct (positive (descending x y)); [|reflexivity].
  rewrite perm_swap. apply perm_skip, IH.
Qed.

Lemma Array_sort_perm (l : list number) :
  Permutation l (Array_sort descending l).
Proof.
  induction l as [|x l IH]; simpl; [reflexivity|].
  rewrite <- sort_insert_perm. apply perm_skip, IH.
Qed.

Lemma desc_trans (a b c : number) :
  isFinite a = true -> isFinite b = true -> isFinite c = true ->
  desc a b -> desc b c -> desc a c.
Proof.
  destruct a as [| |x], b as [| |y], c as [| |z]; try discriminate.
  unfold desc. rewrite !leb_finite. intros _ _ _ H1 H2. lra.
Qed.

Lemma sort_insert_sorted (x : number) (l : list number) :
  isFinite x = true -> all_finite l ->
  StronglySorted desc l -> StronglySorted desc (sort_insert descending x l).
Proof.
  intros Hx Hl Hs. induction Hs as [|y l Hs IH Hy]; simpl.
  - repeat constructor.
  - inversion Hl as [|? ? Hfy Hfl]; subst.
    destruct x as [| |qx]; try discriminate.
    destruct y as [| |qy]; try discriminate.
    unfold descending at 1. rewrite positive_sub.
    destruct (Qle_bool qy qx) eqn:E; simpl.
    + apply Qle_bool_iff in E.
      constructor; [constructor; assumption|].
      constructor; [apply leb_finite; exact E|].
      rewrite Forall_forall in *. intros z Hz.
      apply desc_trans with (b := Finite qy); auto.
      apply leb_finite; exact E.
    + apply Qle_bool_false in E.
      constructor; [apply IH; assumption|].
      eapply Permutation_Forall; [apply sort_insert_perm|].
      constructor; [apply leb_finite; lra|exact Hy].
Qed.

Lemma Array_sort_sorted (l : list number) :
  all_finite l -> StronglySorted desc (Array_sort descending l).
Proof.
  induction 1 as [|x l Hx Hl IH]; simpl; [constructor|].
  apply sort_insert_sorted; [exact Hx| |exact IH].
  eapply Permutation_Forall; [apply Array_sort_perm|exact Hl].
Qed.

Lemma sorted_around (l1 l2 : list number) (m : number) :
  StronglySorted desc (l1 ++ m :: l2) ->
  Forall (fun x => desc x m) l1 /\ Forall (desc m) l2.
Proof.
  induction l1 as [|x l1 IH]; simpl; intros H; inversion H; subst.
  - split; [constructor|assumption].
  - destruct (IH H2) as [Ha Hb]. split; [|exact Hb].
    constructor; [|exact Ha].
    rewrite Forall_forall in H3. apply H3, in_elt.
Qed.

Lemma count_perm (f : number -> bool) (l l' : list number) :
  Permutation l l' ->
  List.length (filter f l) = List.length (filter f l').
Proof.
  induction 1; simpl; try congruence.
  - destruct (f x); simpl; congruence.
  - destruct (f x), (f y); reflexivity.
Qed.

Lemma count_none (f : number -> bool) (l : list number) :
  Forall (fun x => f x = false) l -> List.length (filter f l) = 0%nat.
Proof.
  induction 1 as [|x l Hx _ IH]; simpl; [reflexivity|]. rewrite Hx. exact IH.
Qed.

Lemma count_all (f : number -> bool) (l : list number) :
  Forall (fun x => f x = true) l -> List.length (filter f l) = List.length l.
Proof.
  induction 1 as [|x l Hx _ IH]; simpl; [reflexivity|]. rewrite Hx.
  simpl. congruence.
Qed.

Lemma count_le (f : number -> bool) (l : list number) :
  (List.length (filter f l) <= List.length l)%nat.
Proof.
  induction l as [|x l IH]; simpl; [lia|]. destruct (f x); simpl; lia.
Qed.

End Sorting.

Section MiddleNumber.

(** What the loop keeps of [values]. *)
Definition kept (values : list number) : list number :=
  map Math_abs (filter (fun v => negb (skipped v)) values).

(** The number of entries of [data] above [m], and at least [m]. *)
Definition count_above (m : number) (data : list number) : nat :=
  List.length (filter (fun x => ltb m x) data).

Definition count_at_least (m : number) (data : list number) : nat :=
  List.length (filter (fun x => leb m x) data).

(** [m] is the [k]-th largest entry of [data], counting from 1. *)
Definition kth_largest (k : nat) (m : number) (data : list number) : Prop :=
  In m data /\ (count_above m data < k)%nat /\ (k <= count_at_least m data)%nat.

(** The median that takes the smaller of the two middle entries of an
    even number of entries: the entry of rank [n/2 + 1] from the top. *)
Definition lower_median (m : number) (data : list number) : Prop :=
  kth_largest (S (Nat.div2 (List.length data))) m data.

(** The median as the claim words it, taking the larger of the two middle
    entries of an even number of entries: rank [(n+1)/2] from the top. *)
Definition upper_median (m : number) (data : list number) : Prop :=
  kth_largest (Nat.div2 (S (List.length data))) m data.

(** The loop skips exactly the zeros, [NaN] and the two infinities. *)
Lemma skipped_spec (v : number) :
  skipped v = true
  <-> v = NaN \/ (exists s, v = Infinity s)
      \/ (exists q, v = Finite q /\ (q == 0)%Q).
Proof.
  unfold skipped, strict_eq_zero, isNaN, isFinite.
  destruct v as [|s|q]; simpl.
  - split; [now left|reflexivity].
  - split; [right; left; now exists s|reflexivity].
  - rewrite !orb_false_r. rewrite Qeq_bool_iff. split.
    + intros H. right. right. now exists q.
    + intros [H|[[s H]|[q' [[= <-] H]]]]; try discriminate. exact H.
Qed.

Lemma fold_collect (values acc : list number) :
  fold_left collect values acc = acc ++ kept values.
Proof.
  revert acc. induction values as [|v values IH]; intros acc; simpl.
  - now rewrite app_nil_r.
  - rewrite IH. unfold collect, kept. simpl.
    destruct (skipped v); simpl; [reflexivity|].
    now rewrite <- app_assoc.
Qed.

Lemma filteredAbsData_kept (values : list number) :
  filteredAbsData values = kept values.
Proof. unfold filteredAbsData. now rewrite fold_collect. Qed.

Lemma kept_finite (values : list number) : all_finite (kept values).
Proof.
  unfold kept, all_finite. rewrite Forall_map, Forall_forall.
  intros v Hv. apply filter_In in Hv. destruct Hv as [_ Hv].
  destruct v; simpl in *; try discriminate; reflexivity.
Qed.

Lemma kept_positive (values : list number) :
  Forall (fun v => exists q, v = Finite q /\ (0 < q)%Q) (kept values).
Proof.
  unfold kept. rewrite Forall_map, Forall_forall.
  intros v Hv. apply filter_In in Hv. destruct Hv as [_ Hv].
  destruct v as [| |q]; try discriminate.
  exists (Qabs q). split; [reflexivity|].
  unfold skipped, strict_eq_zero, isNaN, isFinite in Hv.
  rewrite !orb_false_r in Hv. apply negb_true_iff in Hv.
  assert (~ q == 0)%Q as Hq by (apply Qeq_bool_neq; exact Hv).
  destruct (Qlt_le_dec 0 (Qabs q)) as [H|H]; [exact H|].
  exfalso. apply Hq. revert H. apply Qabs_case; intros H1 H2; lra.
Qed.

Lemma middle_of_sorted (l : list number) (k : nat) :
  all_finite l -> StronglySorted desc l -> (k < List.length l)%nat ->
  kth_largest (S k) (nth k l NaN) l.
Proof.
  intros Hf Hs Hk.
  destruct (nth_split l NaN Hk) as (l1 & l2 & Hl & Hl1).
  revert Hl. generalize (nth k l NaN). intros m Hl.
  assert (isFinite m = true) as Hm.
  { unfold all_finite in Hf. rewrite Forall_forall in Hf.
    apply Hf. rewrite Hl. apply in_elt. }
  rewrite Hl in Hs. apply sorted_around in Hs. destruct Hs as [Hbefore Hafter].
  assert (all_finite l1 /\ all_finite l2) as [Hf1 Hf2].
  { rewrite Hl in Hf. unfold all_finite in *.
    apply Forall_app in Hf. destruct Hf as [H1 H2].
    inversion H2; subst. now split. }
  split; [rewrite Hl; apply in_elt|]. split.
  - unfold count_above. rewrite Hl, filter_app, length_app.
    replace (filter (fun x => ltb m x) (m :: l2)) with (@nil number).
    + pose proof (count_le (fun x => ltb m x) l1). simpl. lia.
    + symmetry. apply length_zero_iff_nil. apply count_none.
      constructor.
      * destruct m as [| |q]; try discriminate.
        destruct (ltb (Finite q) (Finite q)) eqn:E; [|reflexivity].
        apply ltb_finite in E. lra.
      * unfold all_finite in Hf2. rewrite Forall_forall in *.
        intros x Hx. specialize (Hafter x Hx). specialize (Hf2 x Hx).
        destruct (ltb m x) eqn:E; [|reflexivity].
        apply ltb_leb_false in E; auto. unfold desc in Hafter. congruence.
  - unfold count_at_least. rewrite Hl, filter_app, length_app.
    rewrite (count_all (fun x => leb m x) (l := l1)) by exact Hbefore.
    simpl. replace (leb m m) with true; [simpl; lia|].
    destruct m as [| |q]; try discriminate.
    symmetry. apply leb_finite. lra.
Qed.

Lemma kth_largest_perm (k : nat) (m : number) (l l' : list number) :
  Permutation l l' -> kth_largest k m l -> kth_largest k m l'.
Proof.
  intros Hp (Hin & Ha & Hb). unfold kth_largest, count_above, count_at_least.
  rewrite <- !(count_perm _ Hp). split; [|now split].
  eapply Permutation_in; eassumption.
Qed.

Lemma getMiddleNumber_kept (values : list number) :
  getMiddleNumber values =
    match kept values with
    | [] => Finite 0
    | _ :: _ =>
        nth (Nat.div2 (List.length (kept values)))
          (Array_sort descending (kept values)) NaN
    end.
Proof.
  unfold getMiddleNumber. rewrite filteredAbsData_kept.
  destruct (kept values) as [|x l]; [reflexivity|].
  cbv zeta. unfold Math_ceil_half.
  replace (S (List.length (x :: l) - 1)) with (List.length (x :: l))
    by (simpl; lia).
  reflexivity.
Qed.

Lemma div2_lt_length (A : Type) (x : A) (l : list A) :
  (Nat.div2 (List.length (x :: l)) < List.length (x :: l))%nat.
Proof. apply Nat.lt_div2. simpl. lia. Qed.

End MiddleNumber.

Example getMiddleNumber_simple :
  getMiddleNumber [Finite 100; Finite 10; Finite 1; Finite 0] = Finite 10.
Proof. reflexivity. Qed.

Example getMiddleNumber_complex :
  getMiddleNumber
    [Finite 0; Finite 0; Finite (-1000); Finite (-100); Finite 10; Finite 1;
     NaN; Infinity true; Finite 0] = Finite 10.
Proof. reflexivity. Qed.

(** C2 (as amended).  [getMiddleNumber] drops the entries that are [0],
    [NaN] or infinite, takes the absolute values of the others and
    returns [0] when none is left; otherwise it returns the median of
    those absolute values, which for an even count is the smaller of the
    two middle entries (the entry of rank [n/2 + 1] from the top). *)
Theorem getMiddleNumber_lower_median (values : list number) :
  (forall v, skipped v = true
             <-> v = NaN \/ (exists s, v = Infinity s)
                 \/ (exists q, v = Finite q /\ (q == 0)%Q))
  /\ filteredAbsData values =
       map Math_abs (filter (fun v => negb (skipped v)) values)
  /\ getMiddleNumber [] = Finite 0
  /\ match filteredAbsData values with
     | [] => getMiddleNumber values = Finite 0
     | _ :: _ => lower_median (getMiddleNumber values) (filteredAbsData values)
     end.
Proof.
  split; [apply skipped_spec|].
  split; [apply filteredAbsData_kept|]. split; [reflexivity|].
  rewrite getMiddleNumber_kept, filteredAbsData_kept.
  pose proof (kept_finite values) as Hf.
  destruct (kept values) as [|x l] eqn:E; [reflexivity|].
  unfold lower_median.
  apply kth_largest_perm with (l := Array_sort descending (x :: l));
    [symmetry; apply Array_sort_perm|].
  rewrite (Permutation_length (Array_sort_perm (x :: l))) at 1 2.
  apply middle_of_sorted.
  - eapply Permutation_Forall; [apply Array_sort_perm|exact Hf].
  - apply Array_sort_sorted, Hf.
  - rewrite <- (Permutation_length (Array_sort_perm (x :: l))).
    apply div2_lt_length.
Qed.

(** C2 (as stated).  With the two entries [1] and [2] the function
    returns [1], which is not the larger of the two middle entries. *)
Lemma getMiddleNumber_not_upper_median :
  getMiddleNumber [Finite 1; Finite 2] = Finite 1
  /\ filteredAbsData [Finite 1; Finite 2] = [Finite 1; Finite 2]
  /\ ~ upper_median (getMiddleNumber [Finite 1; Finite 2])
         (filteredAbsData [Finite 1; Finite 2]).
Proof.
  split; [reflexivity|]. split; [reflexivity|].
  intros (_ & Habove & _). vm_compute in Habove. lia.
Qed.

(** ** formatValue and formatNumberRange *)

Section ValueFacts.

Local Open Scope string_scope.

Variable fraction_toString : Q -> string.
Variable formatTimeRange :
  TimeRange -> option Timezone -> option DisplayYear -> string.

Let fmt := formatValue fraction_toString formatTimeRange.
Let fmtRange := formatNumberRange fraction_toString formatTimeRange.

(** How one bound of a range is rendered. *)
Definition render_bound (bound : option number) : string :=
  match bound with
  | Some n =>
      if truthy n then Number_toString fraction_toString n else "any"
  | None => "any"
  end.

Lemma formatValue_or_any (bound : option number) :
  fmt (or_any bound) None None = render_bound bound.
Proof.
  unfold fmt, render_bound, or_any.
  destruct bound as [n|]; [destruct (truthy n)|]; now simp formatValue.
Qed.

Lemma formatValue_NumberRange (r : NumberRange) (timezone : option Timezone)
  (displayYear : option DisplayYear) :
  fmt (VNumberRange r) timezone displayYear = fmtRange r.
Proof. unfold fmt, fmtRange, formatNumberRange. now simp formatValue. Qed.

Lemma formatNumberRange_bounds (r : NumberRange) :
  fmtRange r = render_bound (start r) ++ " to " ++ render_bound (end_ r).
Proof.
  unfold fmtRange, formatNumberRange. fold fmt.
  now rewrite !formatValue_or_any.
Qed.

Lemma Number_toString_integer (z : Z) :
  (Z.abs z <= 2 ^ 53)%Z ->
  Number_toString fraction_toString (Finite (inject_Z z)) = decimal z.
Proof.
  intros Hz. unfold Number_toString.
  rewrite Qcanon.Qred_identity by (apply Z.gcd_1_r).
  cbn [inject_Z Qnum Qden]. rewrite Pos.eqb_refl.
  apply Z.leb_le in Hz. now rewrite Hz.
Qed.

End ValueFacts.

Section RangeClaims.

Local Open Scope string_scope.

Variable fraction_toString : Q -> string.
Variable formatTimeRange :
  TimeRange -> option Timezone -> option DisplayYear -> string.

(** The closed range from 1 to 5 and the range open below 5. *)
Example formatValue_closed_range :
  formatValue fraction_toString formatTimeRange
    (VNumberRange (mkNumberRange (Some (Finite 1)) (Some (Finite 5)) "[)"))
    None None = "1 to 5".
Proof.
  rewrite formatValue_NumberRange, formatNumberRange_bounds. reflexivity.
Qed.

Example formatValue_open_start :
  formatValue fraction_toString formatTimeRange
    (VNumberRange (mkNumberRange None (Some (Finite 5)) "[)"))
    None None = "any to 5".
Proof.
  rewrite formatValue_NumberRange, formatNumberRange_bounds. reflexivity.
Qed.

(** A bound is rendered by its digits when it is a non-zero number (an
    integer up to 2^53 here) and by the word "any" when it is open. *)
Lemma render_bound_integer (z : Z) :
  z <> 0%Z -> (Z.abs z <= 2 ^ 53)%Z ->
  render_bound fraction_toString (Some (Finite (inject_Z z))) = decimal z.
Proof.
  intros Hz Hlt. unfold render_bound.
  replace (truthy (Finite (inject_Z z))) with true.
  - now apply Number_toString_integer.
  - symmetry. unfold truthy, strict_eq_zero, isNaN. rewrite orb_false_r.
    apply negb_true_iff. destruct (Qeq_bool (inject_Z z) 0) eqn:E; [|easy].
    apply Qeq_bool_iff in E. unfold Qeq in E. simpl in E. lia.
Qed.

End RangeClaims.

(** C3 (at the failing input).  The closed range from 0 to 5 is rendered
    with the word "any" for its start, although that end is not open. *)
Theorem formatValue_closed_zero_start
  (fraction_toString : Q -> string)
  (formatTimeRange : TimeRange -> option Timezone -> option DisplayYear -> string) :
  formatValue fraction_toString formatTimeRange
    (VNumberRange (mkNumberRange (Some (Finite 0)) (Some (Finite 5)) "[)"%string))
    None None = "any to 5"%string.
Proof.
  rewrite formatValue_NumberRange, formatNumberRange_bounds. reflexivity.
Qed.

(** C10.  A bound of a number range that equals 0 is rendered as "any",
    whichever end it is, so the output for a range closed at 0 is the
    output for the range open on that side. *)
Theorem formatNumberRange_zero_bound
  (fraction_toString : Q -> string)
  (formatTimeRange : TimeRange -> option Timezone -> option DisplayYear -> string)
  (q : Q) (other : option number) (bounds bounds' : string) :
  (q == 0)%Q ->
  let fmtRange := formatNumberRange fraction_toString formatTimeRange in
  fmtRange (mkNumberRange (Some (Finite q)) other bounds)
    = ("any" ++ " to " ++ render_bound fraction_toString other)%string
  /\ fmtRange (mkNumberRange other (Some (Finite q)) bounds)
    = (render_bound fraction_toString other ++ " to " ++ "any")%string
  /\ fmtRange (mkNumberRange (Some (Finite q)) other bounds)
    = fmtRange (mkNumberRange None other bounds')
  /\ fmtRange (mkNumberRange other (Some (Finite q)) bounds)
    = fmtRange (mkNumberRange other None bounds').
Proof.
  intros Hq fmtRange. unfold fmtRange.
  rewrite !formatNumberRange_bounds. cbn [start end_].
  assert (render_bound fraction_toString (Some (Finite q)) = "any"%string) as E.
  { unfold render_bound, truthy, strict_eq_zero.
    apply Qeq_bool_iff in Hq. now rewrite Hq. }
  rewrite E. repeat split; reflexivity.
Qed.

Lemma formatNumberRange_zero_bound_witness :
  (0 == 0)%Q
  /\ formatNumberRange (fun _ => EmptyString) (fun _ _ _ => EmptyString)
       (mkNumberRange (Some (Finite 0)) (Some (Finite 5)) "[)"%string)
     = "any to 5"%string.
Proof.
  split; [reflexivity|].
  exact (proj1 (formatNumberRange_zero_bound (fun _ => EmptyString)
                  (fun _ _ _ => EmptyString) (q := 0) (Some (Finite 5))
                  "[)"%string "[)"%string (Qeq_refl 0))).
Defined.

(** ** formatterFromData *)

Section FormatMatch.

Local Open Scope string_scope.

Fixpoint no_whitespace (s : string) : bool :=
  match s with
  | "" => true
  | String c rest => negb (is_whitespace c) && no_whitespace rest
  end.

(** The pattern of [formatterFromData], read as a statement: [format] is
    a run of code units that are not white space, then at most one
    space, then the letter of the format type. *)
Definition format_matches (format numberFormat space : string)
  (formatType : FormatType) : Prop :=
  format = numberFormat ++ space ++ FormatType_string formatType
  /\ no_whitespace numberFormat = true
  /\ (space = "" \/ space = " ").

Lemma FormatType_of_char_Some (c : ascii) (t : FormatType) :
  FormatType_of_char c = Some t <-> c = FormatType_char t.
Proof.
  unfold FormatType_of_char. split.
  - destruct (Ascii.eqb c "a") eqn:Ea.
    + apply Ascii.eqb_eq in Ea. intros [= <-]. exact Ea.
    + destruct (Ascii.eqb c "b") eqn:Eb; [|discriminate].
      apply Ascii.eqb_eq in Eb. intros [= <-]. exact Eb.
  - intros ->. destruct t; reflexivity.
Qed.

Lemma format_match_sound (format numberFormat space : string)
  (t : FormatType) :
  format_match format = Some (numberFormat, space, t) ->
  format_matches format numberFormat space t.
Proof.
  revert numberFormat. induction format as [|c rest IH]; intros nf; [discriminate|].
  destruct rest as [|d rest'].
  - simpl. destruct (FormatType_of_char c) as [t'|] eqn:E; [|discriminate].
    intros [= <- <- <-]. apply FormatType_of_char_Some in E. subst c.
    repeat split. now left.
  - change (format_match (String c (String d rest'))) with
      (if is_whitespace c then
         if Ascii.eqb c " " then
           match rest' with
           | "" => match FormatType_of_char d with
                   | Some t => Some ("", " ", t)
                   | None => None
                   end
           | _ => None
           end
         else None
       else match format_match (String d rest') with
            | Some (numberFormat, space, t) =>
                Some (String c numberFormat, space, t)
            | None => None
            end).
    destruct (is_whitespace c) eqn:Ews.
    + destruct (Ascii.eqb c " ") eqn:Esp; [|discriminate].
      apply Ascii.eqb_eq in Esp. subst c.
      destruct rest'; [|discriminate].
      destruct (FormatType_of_char d) as [t'|] eqn:E; [|discriminate].
      intros [= <- <- <-]. apply FormatType_of_char_Some in E. subst d.
      repeat split. now right.
    + destruct (format_match (String d rest')) as [[[nf' sp'] t']|] eqn:E;
        [|discriminate].
      intros [= <- <- <-]. destruct (IH _ eq_refl) as (Hf & Hnf & Hsp).
      split; [simpl; now rewrite Hf|]. split; [|exact Hsp].
      simpl. now rewrite Ews, Hnf.
Qed.

Lemma format_match_complete (format numberFormat space : string)
  (t : FormatType) :
  format_matches format numberFormat space t ->
  format_match format = Some (numberFormat, space, t).
Proof.
  intros (-> & Hnf & Hsp). induction numberFormat as [|c nf IH].
  - destruct Hsp as [-> | ->]; destruct t; reflexivity.
  - simpl in Hnf. apply andb_true_iff in Hnf. destruct Hnf as [Hc Hnf].
    apply negb_true_iff in Hc. specialize (IH Hnf).
    assert (exists d rest', nf ++ space ++ FormatType_string t = String d rest')
      as (d & rest' & E).
    { destruct nf; [|simpl; eauto].
      destruct Hsp as [-> | ->]; unfold FormatType_string; simpl; eauto. }
    simpl append at 1. rewrite E in *.
    change (format_match (String c (String d rest'))) with
      (if is_whitespace c then
         if Ascii.eqb c " " then
           match rest' with
           | "" => match FormatType_of_char d with
                   | Some t => Some ("", " ", t)
                   | None => None
                   end
           | _ => None
           end
         else None
       else match format_match (String d rest') with
            | Some (numberFormat, space, t) =>
                Some (String c numberFormat, space, t)
            | None => None
            end).
    now rewrite Hc, IH.
Qed.

(** The matcher finds the groups of the pattern, which are unique. *)
Lemma format_match_spec (format numberFormat space : string)
  (t : FormatType) :
  format_match format = Some (numberFormat, space, t)
  <-> format_matches format numberFormat space t.
Proof. split; [apply format_match_sound|apply format_match_complete]. Qed.

Lemma format_match_None (format : string) :
  format_match format = None
  <-> forall numberFormat space t, ~ format_matches format numberFormat space t.
Proof.
  split.
  - intros E nf sp t H. apply format_match_complete in H. congruence.
  - intros H. destruct (format_match format) as [[[nf sp] t]|] eqn:E;
      [|reflexivity].
    apply format_match_sound in E. now apply H in E.
Qed.

Example format_match_space : format_match "0,0.0 a" = Some ("0,0.0", " ", type_a).
Proof. reflexivity. Qed.

Example format_match_nospace : format_match "0.00b" = Some ("0.00", "", type_b).
Proof. reflexivity. Qed.

Example format_match_greedy : format_match "ab" = Some ("a", "", type_b).
Proof. reflexivity. Qed.

Example format_match_plain : format_match "0,0.00" = None.
Proof. reflexivity. Qed.

Example format_match_two_spaces : format_match "0  a" = None.
Proof. reflexivity. Qed.

End FormatMatch.

Section FormatterFacts.

Local Open Scope string_scope.

Lemma getMiddleNumber_finite (values : list number) :
  isFinite (getMiddleNumber values) = true.
Proof.
  rewrite getMiddleNumber_kept.
  pose proof (kept_finite values) as Hf.
  destruct (kept values) as [|x l]; [reflexivity|].
  assert (all_finite (Array_sort descending (x :: l))) as Hs.
  { eapply Permutation_Forall; [apply Array_sort_perm|exact Hf]. }
  unfold all_finite in Hs. rewrite Forall_forall in Hs. apply Hs, nth_In.
  rewrite <- (Permutation_length (Array_sort_perm (x :: l))).
  apply div2_lt_length.
Qed.

Lemma assoc_In (key : string) (table : list (string * Q)) (v : Q) :
  assoc key table = Some v -> In (key, v) table.
Proof.
  induction table as [|[k w] table IH]; simpl; [discriminate|].
  destruct (String.eqb k key) eqn:E.
  - apply String.eqb_eq in E. intros [= <-]. left. now subst.
  - intros H. right. now apply IH.
Qed.

(** Every scale of the table is a non-zero number. *)
Lemma scales_nonzero (formatType : FormatType) (unit : string) (k : Q) :
  scales formatType unit = Some k -> Qeq_bool k 0 = false.
Proof.
  destruct formatType; unfold scales; intros H; apply assoc_In in H;
    unfold scales_a, scales_b in H; cbn [In] in H;
    repeat (destruct H as [H|H]; [injection H as _ <-; reflexivity|]);
    destruct H.
Qed.

Lemma div_scale_Some (q k : Q) (formatType : FormatType) (unit : string) :
  scales formatType unit = Some k ->
  div_scale (Finite q) (scales formatType unit) = Finite (q / k).
Proof.
  intros H. rewrite H. simpl. now rewrite (scales_nonzero _ _ H).
Qed.

End FormatterFacts.

(** ** Filter clauses *)

Section ClauseFacts.

Local Open Scope string_scope.

Variable fraction_toString : Q -> string.
Variable formatTimeRange :
  TimeRange -> option Timezone -> option DisplayYear -> string.
Variable TimeRange_fromJS : option DateRange -> TimeRange.
Variable STRINGS : Strings.

(** The text of a collection of values before any wrapping: the count in
    parentheses when there is more than one element, the formatted first
    element otherwise. *)
Definition count_or_value (values : list Value) : string :=
  if Nat.ltb 1 (List.length values)
  then "(" ++ decimal (Z.of_nat (List.length values)) ++ ")"
  else formatValue fraction_toString formatTimeRange (first values) None None.

(** The word that starts the text of a relative time filter. *)
Definition period_word (period : TimeFilterPeriod) : string :=
  match period with
  | PREVIOUS => previous STRINGS
  | CURRENT => current STRINGS
  | LATEST => latest STRINGS
  end.

(** The two components as the claim words them: the title with its
    delimiter, and the count or the single value as the text. *)
Definition claimed_title (dimension : Dimension) (clause : FilterClause)
  : string :=
  if isTimeFilter clause then ""
  else if Nat.ltb 1 (List.length (clause_values clause)) then title dimension
  else if is_string_action clause MATCH || is_string_action clause CONTAINS
  then title dimension ++ " ~"
  else title dimension ++ ":".

Definition claimed_text (clause : FilterClause) : string :=
  count_or_value (clause_values clause).

Lemma getClauseLabel_claimed (dimension : Dimension) (clause : FilterClause) :
  getClauseLabel clause dimension = claimed_title dimension clause.
Proof.
  unfold getClauseLabel, claimed_title.
  destruct (isTimeFilter clause); [reflexivity|].
  destruct (Nat.ltb 1 (List.length (clause_values clause))); [reflexivity|].
  destruct (is_string_action clause MATCH || is_string_action clause CONTAINS);
    reflexivity.
Qed.

(** The delimiter that follows the dimension title of a clause with at
    most one value. *)
Definition delimiter_of (clause : FilterClause) : string :=
  if is_string_action clause MATCH || is_string_action clause CONTAINS
  then " ~" else ":".

Lemma nonempty_append (s t : string) :
  nonempty (s ++ t) = nonempty s || nonempty t.
Proof. destruct s; reflexivity. Qed.

Lemma nonempty_delimiter (clause : FilterClause) :
  nonempty (delimiter_of clause) = true.
Proof.
  unfold delimiter_of.
  destruct (is_string_action clause MATCH || is_string_action clause CONTAINS);
    reflexivity.
Qed.

End ClauseFacts.

(** C9 (as amended).  The title is empty for a time filter; otherwise it
    is the dimension title alone when the clause holds more than one
    value, and the dimension title followed by " ~" (string clauses with
    action MATCH or CONTAINS) or ":" (all others) when it holds at most
    one.  The text is the period phrase or the formatted range for a time
    filter; otherwise it is the count in parentheses when the clause holds
    more than one value and the formatted first value when not, put
    between slashes for a string clause with action MATCH and between
    double quotes for one with action CONTAINS. *)
Theorem getFormattedClause_components
  (fraction_toString : Q -> string)
  (formatTimeRange : TimeRange -> option Timezone -> option DisplayYear -> string)
  (TimeRange_fromJS : option DateRange -> TimeRange)
  (STRINGS : Strings)
  (dimension : Dimension) (clause : FilterClause) (timezone : Timezone) :
  let formatted :=
    getFormattedClause fraction_toString formatTimeRange TimeRange_fromJS
      STRINGS dimension clause timezone in
  let text := count_or_value fraction_toString formatTimeRange in
  clause_title formatted = claimed_title dimension clause
  /\ clause_text formatted =
     match clause with
     | TimeFilter (FixedTimeFilterClause ranges) =>
         formatTimeRange (TimeRange_fromJS (nth_error ranges 0))
           (Some timezone) (Some IF_DIFF)
     | TimeFilter (RelativeTimeFilterClause period duration) =>
         (period_word STRINGS period ++ " "
          ++ (if String.eqb (Duration_toString duration) "P3M"
              then toLowerCase (quarter STRINGS)
              else getDescription duration))%string
     | StringFilterClause MATCH values => ("/" ++ text values ++ "/")%string
     | StringFilterClause CONTAINS values =>
         (double_quote ++ text values ++ double_quote)%string
     | StringFilterClause IN values
     | BooleanFilterClause values
     | NumberFilterClause values => text values
     end.
Proof.
  intros formatted text. split.
  - apply getClauseLabel_claimed.
  - unfold formatted, getFormattedClause, clause_text, getFilterClauseValues.
    destruct clause as [values|values|action values|[ranges|period duration]];
      cbn [as_time_filter clause_values]; try reflexivity.
    + destruct action; reflexivity.
    + destruct period; reflexivity.
Qed.

(** Stand-ins for the collaborators of the clause formatter. *)
Definition no_fraction (q : Q) : string := "?"%string.

Definition no_time_range (r : TimeRange) (timezone : option Timezone)
  (displayYear : option DisplayYear) : string := "range"%string.

Definition no_fromJS (r : option DateRange) : TimeRange :=
  mkTimeRange None None "[)"%string.

Definition strings_en : Strings :=
  mkStrings "Previous"%string "Current"%string "Latest"%string
    "Quarter"%string.

(** C9 (as stated).  For a string clause with action MATCH and the single
    value "a", the text is "/a/" and not the formatted value "a". *)
Lemma getFormattedClause_match_wrapped :
  let clause := StringFilterClause MATCH [VString "a"%string] in
  let formatted :=
    getFormattedClause no_fraction no_time_range no_fromJS strings_en
      (mkDimension "Page"%string) clause "Etc/UTC"%string in
  clause_title formatted = "Page ~"%string
  /\ clause_text formatted = "/a/"%string
  /\ claimed_text no_fraction no_time_range clause = "a"%string
  /\ clause_text formatted <> claimed_text no_fraction no_time_range clause.
Proof.
  repeat split. discriminate.
Qed.

Example formatFilterClause_relative :
  formatFilterClause no_fraction no_time_range no_fromJS strings_en
    (mkDimension "Time"%string)
    (TimeFilter (RelativeTimeFilterClause PREVIOUS
                   (mkDuration "P3M"%string "3 months"%string)))
    "Etc/UTC"%string
  = "Previous quarter"%string.
Proof. reflexivity. Qed.

Example formatFilterClause_many :
  formatFilterClause no_fraction no_time_range no_fromJS strings_en
    (mkDimension "Page"%string)
    (StringFilterClause IN [VString "a"; VString "b"; VString "c"]%string)
    "Etc/UTC"%string
  = "Page (3)"%string.
Proof. reflexivity. Qed.

Example formatFilterClause_contains :
  formatFilterClause no_fraction no_time_range no_fromJS strings_en
    (mkDimension "Page"%string)
    (StringFilterClause CONTAINS [VString "a"]%string)
    "Etc/UTC"%string
  = ("Page ~ " ++ double_quote ++ "a" ++ double_quote)%string.
Proof. reflexivity. Qed.

(** ** Measures-definition converter *)

Section ConverterFacts.

Import MeasuresDefinition.

Lemma existsb_eqb_In (x : string) (l : list string) :
  existsb (String.eqb x) l = true <-> In x l.
Proof.
  rewrite existsb_exists. split.
  - intros (y & Hy & E). apply String.eqb_eq in E. now subst.
  - intros H. exists x. split; [exact H|apply String.eqb_refl].
Qed.

Lemma add_element_In (l : list string) (x y : string) :
  In y (add_element l x) <-> In y l \/ y = x.
Proof.
  unfold add_element. destruct (existsb (String.eqb x) l) eqn:E.
  - apply existsb_eqb_In in E. split; [tauto|]. intros [H|H]; [|subst y]; assumption.
  - rewrite in_app_iff. simpl. intuition congruence.
Qed.

(** The elements of [OrderedSet.of(...values)] are those of [values]. *)
Lemma OrderedSet_of_In_from (values : list string) (s : OrderedSet) (y : string) :
  In y (toArray (fold_left OrderedSet_add values s))
  <-> In y (toArray s) \/ In y values.
Proof.
  revert s. induction values as [|x values IH]; intros s; simpl; [tauto|].
  rewrite IH. simpl. rewrite add_element_In. intuition congruence.
Qed.

Lemma OrderedSet_of_In (values : list string) (y : string) :
  In y (toArray (OrderedSet_of values)) <-> In y values.
Proof. unfold OrderedSet_of. rewrite OrderedSet_of_In_from. simpl. tauto. Qed.

(** Adding, in order, elements that are new and distinct appends them. *)
Lemma OrderedSet_of_NoDup_from (values : list string) (s : OrderedSet) :
  NoDup (toArray s ++ values) ->
  toArray (fold_left OrderedSet_add values s) = toArray s ++ values.
Proof.
  revert s. induction values as [|x values IH]; intros s Hnd; simpl.
  - now rewrite app_nil_r.
  - assert (add_element (toArray s) x = toArray s ++ [x]) as E.
    { unfold add_element.
      destruct (existsb (String.eqb x) (toArray s)) eqn:Hx; [|reflexivity].
      apply existsb_eqb_In in Hx. apply NoDup_remove_2 in Hnd.
      exfalso. apply Hnd, in_or_app. now left. }
    rewrite IH; simpl; rewrite E, <- app_assoc; [reflexivity|exact Hnd].
Qed.

Lemma OrderedSet_of_toArray (s : OrderedSet) :
  toArray (OrderedSet_of (toArray s)) = toArray s.
Proof.
  unfold OrderedSet_of. rewrite OrderedSet_of_NoDup_from; [reflexivity|].
  simpl. apply toArray_NoDup.
Qed.

End ConverterFacts.

(** C4.  Both converters are total functions that copy [isMulti] and
    [single] without looking at them.  Converting a [Measures] value to
    its definition and back keeps [isMulti], [single] and the elements of
    [multi] (and their order); converting any definition, valid or not,
    gives a [Measures] value whose [multi] has the elements of the
    definition's sequence. *)
Theorem measuresDefinitionConverter_round_trip
  (m : MeasuresDefinition.Measures)
  (js : MeasuresDefinition.MeasuresDefinitionJS) :
  let m' := MeasuresDefinition.toEssenceMeasures
              (MeasuresDefinition.fromEssenceMeasures m) in
  let m2 := MeasuresDefinition.toEssenceMeasures js in
  (MeasuresDefinition.isMulti m' = MeasuresDefinition.isMulti m
   /\ MeasuresDefinition.single m' = MeasuresDefinition.single m
   /\ (forall x,
         In x (MeasuresDefinition.toArray (MeasuresDefinition.multi m'))
         <-> In x (MeasuresDefinition.toArray (MeasuresDefinition.multi m)))
   /\ MeasuresDefinition.toArray (MeasuresDefinition.multi m')
      = MeasuresDefinition.toArray (MeasuresDefinition.multi m))
  /\ (MeasuresDefinition.isMulti m2 = MeasuresDefinition.js_isMulti js
      /\ MeasuresDefinition.single m2 = MeasuresDefinition.js_single js
      /\ forall x,
           In x (MeasuresDefinition.toArray (MeasuresDefinition.multi m2))
           <-> In x (MeasuresDefinition.js_multi js)).
Proof.
  intros m' m2. split.
  - assert (MeasuresDefinition.toArray (MeasuresDefinition.multi m')
            = MeasuresDefinition.toArray (MeasuresDefinition.multi m)) as E
      by apply OrderedSet_of_toArray.
    repeat split; try reflexivity; try exact E; rewrite E; tauto.
  - repeat split; try reflexivity; apply OrderedSet_of_In.
Qed.

Example toEssenceMeasures_deduplicates :
  MeasuresDefinition.toArray
    (MeasuresDefinition.multi
       (MeasuresDefinition.toEssenceMeasures
          (MeasuresDefinition.mkMeasuresDefinitionJS true "a"
             ["b"; "a"; "b"; "c"]%string)))
  = ["b"; "a"; "c"]%string.
Proof. reflexivity. Qed.

(** ** DimensionMeasurePanel *)

Section PanelFacts.

Import Panel.

Lemma clamp_bounds (x : number) (a b : Q) :
  isNaN x = false -> (a <= b)%Q ->
  exists r, clamp x (Finite a) (Finite b) = Finite r /\ (a <= r <= b)%Q.
Proof.
  intros Hx Hab. unfold clamp.
  destruct x as [|s|q]; [discriminate| |].
  - destruct s; simpl.
    + destruct (Qle_bool a b) eqn:E.
      * exists a. split; [reflexivity|]. lra.
      * apply Qle_bool_false in E. lra.
    + exists b. split; [reflexivity|]. lra.
  - unfold Math_max, leb. destruct (Qle_bool q a) eqn:E1.
    + apply Qle_bool_iff in E1. unfold Math_min, leb.
      destruct (Qle_bool a b) eqn:E2.
      * exists a. split; [reflexivity|]. lra.
      * apply Qle_bool_false in E2. lra.
    + apply Qle_bool_false in E1. unfold Math_min, leb.
      destruct (Qle_bool q b) eqn:E2.
      * apply Qle_bool_iff in E2. exists q. split; [reflexivity|]. lra.
      * exists b. split; [reflexivity|]. lra.
Qed.

Lemma dividerConstraints_finite (h : Q) :
  exists a b,
    dividerConstraints (Finite h) = mkConstraints (Finite a) (Finite b)
    /\ ((a <= b)%Q <-> (h <= 0)%Q \/ (200 <= h)%Q).
Proof.
  unfold dividerConstraints, MIN_PANEL_SIZE, Math_min, Math_max, sub, leb.
  destruct (Qle_bool 100 h) eqn:E1; destruct (Qle_bool (h - 100) 0) eqn:E2.
  - apply Qle_bool_iff in E1, E2. exists 100, 0. split; [reflexivity|]. lra.
  - apply Qle_bool_iff in E1. apply Qle_bool_false in E2.
    exists 100, (h - 100). split; [reflexivity|]. lra.
  - apply Qle_bool_false in E1. apply Qle_bool_iff in E2.
    exists h, 0. split; [reflexivity|]. lra.
  - apply Qle_bool_false in E1, E2. lra.
Qed.

(** The bounds agree exactly for a container of height at most 0 or at
    least twice the minimum panel size. *)
Lemma consistent_iff (h : Q) :
  consistent (Finite h) = true <-> (h <= 0)%Q \/ (200 <= h)%Q.
Proof.
  unfold consistent.
  destruct (dividerConstraints_finite h) as (a & b & E & Hab).
  rewrite E. cbn [minDividerPosition maxDividerPosition].
  rewrite leb_finite. exact Hab.
Qed.

(** A position clamped to consistent bounds lies within them. *)
Lemma clamped_within (x : number) (h : Q) :
  isNaN x = false -> consistent (Finite h) = true ->
  let cs := dividerConstraints (Finite h) in
  within_constraints
    {| dividerPosition := clamp x (minDividerPosition cs) (maxDividerPosition cs);
       containerHeight := Finite h |} = true.
Proof.
  intros Hx Hc cs. unfold within_constraints, consistent in *.
  cbn [containerHeight dividerPosition]. fold cs. fold cs in Hc.
  destruct (dividerConstraints_finite h) as (a & b & E & _).
  unfold cs in *. rewrite E in *. cbn [minDividerPosition maxDividerPosition] in *.
  apply leb_finite in Hc.
  destruct (clamp_bounds x Hx Hc) as (r & -> & Hr).
  apply andb_true_iff. split; apply leb_finite; lra.
Qed.

Lemma ratio_finite (d m : nat) :
  (0 < m + d)%nat ->
  exists r, div (of_nat d) (of_nat (m + d)) = Finite r.
Proof.
  intros H. unfold div, of_nat.
  replace (Qeq_bool (inject_Z (Z.of_nat (m + d))) 0) with false; [eauto|].
  symmetry. destruct (Qeq_bool (inject_Z (Z.of_nat (m + d))) 0) eqn:E;
    [|reflexivity].
  apply Qeq_bool_iff in E. unfold Qeq in E. simpl in E. lia.
Qed.

Lemma scaled_height_not_NaN (h : Q) (d m : nat) :
  (0 < m + d)%nat ->
  isNaN (mul (Finite h) (div (of_nat d) (of_nat (m + d)))) = false.
Proof.
  intros H. destruct (ratio_finite d m H) as (r & ->). reflexivity.
Qed.

Lemma step_props (c c' : Component) (e : Event) :
  step c e = Some c' -> props c' = props c.
Proof.
  destruct e as [container height|raw|height]; simpl.
  - intros [= <-]. destruct container; reflexivity.
  - destruct (ResizeHandle_drag (render c) raw); [|discriminate].
    intros [= <-]. reflexivity.
  - unfold saveContainerRect. destruct (containerRef c); [|discriminate].
    intros [= <-]. reflexivity.
Qed.

End PanelFacts.

Section PanelInvariant.

Import Panel.

(** The invariant can only hold where the bounds are consistent. *)
Lemma within_consistent (s : DimensionMeasurePanelState) (h : Q) :
  containerHeight s = Finite h -> within_constraints s = true ->
  consistent (Finite h) = true.
Proof.
  unfold within_constraints, consistent. intros -> H.
  destruct (dividerConstraints_finite h) as (a & b & E & _).
  rewrite E in *. cbn [minDividerPosition maxDividerPosition] in *.
  apply andb_true_iff in H. destruct H as [H1 H2].
  destruct (dividerPosition s) as [|sg|r]; try discriminate.
  - destruct sg; discriminate.
  - apply leb_finite in H1, H2. apply leb_finite. lra.
Qed.

(** Between 0 and twice the minimum panel size no position is within the
    bounds, whatever put it there. *)
Lemma no_position_within (h : Q) (position : number) :
  (0 < h)%Q -> (h < 200)%Q ->
  within_constraints {| dividerPosition := position;
                        containerHeight := Finite h |} = false.
Proof.
  intros H0 H200.
  destruct (within_constraints _) eqn:E; [|reflexivity].
  apply within_consistent with (h := h) in E; [|reflexivity].
  apply consistent_iff in E. lra.
Qed.

End PanelInvariant.

(** C6 (as amended).  Right after the mount-time measurement of a
    container of height [h], for positive dimension and measure counts,
    [containerHeight] is [h] and [dividerPosition] is
    [clamp(h * dimensionsCount / (measuresCount + dimensionsCount), min, max)]
    for the bounds [dividerConstraints] derives from [h]; the position
    satisfies [min <= dividerPosition <= max] exactly when [h] is at most
    0 or at least twice the minimum panel size (200). *)
Theorem calculateInitialPosition_within
  (c : Panel.Component) (element : Panel.Element) (h : Q) :
  (0 < Panel.dimensionsCount (Panel.props c))%nat ->
  (0 < Panel.measuresCount (Panel.props c))%nat ->
  let c' := Panel.calculateInitialPosition c (Some element) (Finite h) in
  let cs := Panel.dividerConstraints (Finite h) in
  let ratio :=
    div (of_nat (Panel.dimensionsCount (Panel.props c)))
      (of_nat (Panel.measuresCount (Panel.props c)
               + Panel.dimensionsCount (Panel.props c))) in
  Panel.containerHeight (Panel.state c') = Finite h
  /\ Panel.dividerPosition (Panel.state c')
     = Panel.clamp (mul (Finite h) ratio)
         (Panel.minDividerPosition cs) (Panel.maxDividerPosition cs)
  /\ (Panel.within_constraints (Panel.state c') = true
      <-> (h <= 0)%Q \/ (200 <= h)%Q).
Proof.
  intros Hd Hm c' cs ratio. split; [reflexivity|]. split; [reflexivity|].
  rewrite <- consistent_iff. split.
  - apply within_consistent. reflexivity.
  - intros Hc. unfold c', Panel.calculateInitialPosition. cbn [Panel.state].
    apply clamped_within; [|exact Hc].
    apply scaled_height_not_NaN. lia.
Qed.

Lemma calculateInitialPosition_within_witness :
  (0 < 3)%nat /\ (0 < 1)%nat
  /\ Panel.dividerPosition
       (Panel.state
          (Panel.calculateInitialPosition (Panel.initial (Panel.mkProps 3 1))
             (Some 0%nat) (Finite 400)))
     = Panel.clamp (mul (Finite 400) (div (of_nat 3) (of_nat (1 + 3))))
         (Finite 100) (Finite (400 - 100)).
Proof.
  split; [lia|]. split; [lia|].
  exact (proj1 (proj2 (@calculateInitialPosition_within
                         (Panel.initial (Panel.mkProps 3 1)) 0%nat 400
                         ltac:(simpl; lia) ltac:(simpl; lia)))).
Defined.

(** C6 (as stated).  A container 150 high, with one dimension and one
    measure: the bounds are 100 and 50, the position is 50, below the
    lower bound. *)
Lemma calculateInitialPosition_small_container :
  let c' := Panel.calculateInitialPosition (Panel.initial (Panel.mkProps 1 1))
              (Some 0%nat) (Finite 150) in
  Panel.dividerConstraints (Finite 150)
    = Panel.mkConstraints (Finite 100) (Finite (150 - 100))
  /\ Panel.dividerPosition (Panel.state c') = Finite (150 - 100)
  /\ leb (Finite 100) (Panel.dividerPosition (Panel.state c')) = false
  /\ Panel.within_constraints (Panel.state c') = false.
Proof. repeat split. Qed.

(** C5 (as stated).  After the measurement of a container 400 high, a
    window resize that leaves the container 250 high keeps the position
    200, above the new upper bound 150. *)
Lemma layout_invariant_broken_by_resize :
  let events := [Panel.RefCallback (Some 0%nat) (Finite 400);
                 Panel.WindowResize (Finite 250)] in
  forallb Panel.dom_event events = true
  /\ exists c,
       Panel.run (Panel.initial (Panel.mkProps 1 1)) events = Some c
       /\ Panel.maxDividerPosition
            (Panel.dividerConstraints (Panel.containerHeight (Panel.state c)))
          = Finite (250 - 100)
       /\ leb (Panel.dividerPosition (Panel.state c)) (Finite (250 - 100)) = false
       /\ Panel.within_constraints (Panel.state c) = false.
Proof.
  intros events. split; [reflexivity|].
  eexists. split; [reflexivity|]. repeat split.
Qed.

(** * Further properties *)

(** ** getMiddleNumber: what it does not depend on *)

Section MiddleNumberMore.

(** Two numbers with the same numeric value. *)
Definition same_value (a b : number) : Prop :=
  match a, b with
  | NaN, NaN => True
  | Infinity s, Infinity t => s = t
  | Finite x, Finite y => (x == y)%Q
  | _, _ => False
  end.

Lemma skipped_abs (v : number) : skipped (Math_abs v) = skipped v.
Proof.
  destruct v as [|s|q]; [reflexivity|reflexivity|].
  unfold skipped, Math_abs, strict_eq_zero, isNaN, isFinite.
  f_equal. f_equal.
  destruct (Qeq_bool q 0) eqn:E.
  - apply Qeq_bool_iff in E. apply Qeq_bool_iff. rewrite E. reflexivity.
  - apply Qeq_bool_neq in E. destruct (Qeq_bool (Qabs q) 0) eqn:E'; [|reflexivity].
    apply Qeq_bool_iff in E'. exfalso. apply E.
    revert E'. apply Qabs_case; intros; lra.
Qed.

Lemma abs_abs (v : number) : Math_abs (Math_abs v) = Math_abs v.
Proof.
  destruct v as [|s|[n d]]; [reflexivity|reflexivity|].
  unfold Math_abs, Qabs. now rewrite Z.abs_idemp.
Qed.

Lemma kept_abs (values : list number) : kept (map Math_abs values) = kept values.
Proof.
  unfold kept. induction values as [|v values IH]; [reflexivity|].
  simpl. rewrite skipped_abs. destruct (skipped v); simpl; [exact IH|].
  now rewrite abs_abs, IH.
Qed.

Lemma kept_filter (values : list number) :
  kept (filter (fun v => negb (skipped v)) values) = kept values.
Proof.
  unfold kept. induction values as [|v values IH]; [reflexivity|].
  simpl. destruct (skipped v) eqn:E; simpl; [exact IH|].
  rewrite E. simpl. now rewrite IH.
Qed.

Lemma getMiddleNumber_of_kept (values values' : list number) :
  kept values = kept values' -> getMiddleNumber values = getMiddleNumber values'.
Proof. intros E. now rewrite !getMiddleNumber_kept, E. Qed.

Lemma filter_perm (f : number -> bool) (l l' : list number) :
  Permutation l l' -> Permutation (filter f l) (filter f l').
Proof.
  induction 1 as [|x l l' _ IH|x y l|l l' l'' _ IH1 _ IH2]; simpl.
  - constructor.
  - destruct (f x); [now constructor|exact IH].
  - destruct (f x), (f y); try reflexivity. constructor.
  - now transitivity (filter f l').
Qed.

Lemma kept_perm (values values' : list number) :
  Permutation values values' -> Permutation (kept values) (kept values').
Proof. intros H. unfold kept. now apply Permutation_map, filter_perm. Qed.

Lemma count_mono (f g : number -> bool) (l : list number) :
  Forall (fun x => f x = true -> g x = true) l ->
  (List.length (filter f l) <= List.length (filter g l))%nat.
Proof.
  induction 1 as [|x l Hx _ IH]; simpl; [lia|].
  destruct (f x) eqn:E.
  - rewrite (Hx eq_refl). simpl. lia.
  - destruct (g x); simpl; lia.
Qed.

Lemma kth_largest_below (k : nat) (a b : Q) (l : list number) :
  all_finite l -> (a < b)%Q ->
  kth_largest k (Finite a) l -> kth_largest k (Finite b) l -> False.
Proof.
  intros Hf Hab (_ & Ha & _) (_ & _ & Hb).
  unfold count_above, count_at_least in *.
  assert (List.length (filter (fun x => leb (Finite b) x) l)
          <= List.length (filter (fun x => ltb (Finite a) x) l))%nat; [|lia].
  apply count_mono. unfold all_finite in Hf. rewrite Forall_forall in *.
  intros x Hx. specialize (Hf x Hx). destruct x as [| |q]; try discriminate.
  rewrite leb_finite, ltb_finite. lra.
Qed.

(** The entry of a given rank is determined up to its numeric value. *)
Lemma kth_largest_unique (k : nat) (m m' : number) (l : list number) :
  all_finite l -> kth_largest k m l -> kth_largest k m' l -> same_value m m'.
Proof.
  intros Hf Hm Hm'.
  assert (isFinite m = true /\ isFinite m' = true) as [Fm Fm'].
  { unfold all_finite in Hf. rewrite Forall_forall in Hf.
    split; apply Hf; [apply Hm|apply Hm']. }
  destruct m as [| |a]; try discriminate. destruct m' as [| |b]; try discriminate.
  simpl. destruct (Q_dec a b) as [[H|H]|H]; [| |exact H]; exfalso.
  - exact (kth_largest_below Hf H Hm Hm').
  - exact (kth_largest_below Hf H Hm' Hm).
Qed.

Lemma getMiddleNumber_median_of_kept (values : list number) :
  kept values <> [] -> lower_median (getMiddleNumber values) (kept values).
Proof.
  intros Hne. rewrite getMiddleNumber_kept.
  pose proof (kept_finite values) as Hf.
  destruct (kept values) as [|x l]; [congruence|].
  unfold lower_median.
  apply kth_largest_perm with (l := Array_sort descending (x :: l));
    [symmetry; apply Array_sort_perm|].
  rewrite (Permutation_length (Array_sort_perm (x :: l))) at 1 2.
  apply middle_of_sorted.
  - eapply Permutation_Forall; [apply Array_sort_perm|exact Hf].
  - apply Array_sort_sorted, Hf.
  - rewrite <- (Permutation_length (Array_sort_perm (x :: l))).
    apply div2_lt_length.
Qed.

End MiddleNumberMore.

(** X1.  The middle number does not depend on the order of the values:
    two arrangements of the same values give results of the same numeric
    value. *)
Theorem getMiddleNumber_permutation (values values' : list number) :
  Permutation values values' ->
  same_value (getMiddleNumber values) (getMiddleNumber values').
Proof.
  intros Hp. pose proof (kept_perm Hp) as Hk.
  destruct (kept values) as [|x l] eqn:E.
  - apply Permutation_nil in Hk.
    rewrite !getMiddleNumber_kept, E, Hk. simpl. reflexivity.
  - assert (kept values' <> []) as Hne'.
    { intros E'. rewrite E' in Hk. apply Permutation_sym, Permutation_nil in Hk.
      discriminate. }
    assert (kept values <> []) as Hne by (rewrite E; discriminate).
    pose proof (@getMiddleNumber_median_of_kept values Hne) as H1.
    pose proof (@getMiddleNumber_median_of_kept values' Hne') as H2.
    unfold lower_median in *. rewrite E in H1.
    rewrite <- (Permutation_length Hk) in H2.
    apply (kth_largest_perm (Permutation_sym Hk)) in H2.
    refine (@kth_largest_unique _ _ _ (x :: l) _ H1 H2).
    rewrite <- E. apply kept_finite.
Qed.

Lemma getMiddleNumber_permutation_witness :
  Permutation [Finite 3; Finite (-7); Finite 5] [Finite 5; Finite 3; Finite (-7)]
  /\ same_value (getMiddleNumber [Finite 3; Finite (-7); Finite 5])
       (getMiddleNumber [Finite 5; Finite 3; Finite (-7)]).
Proof.
  assert (Permutation [Finite 3; Finite (-7); Finite 5]
            [Finite 5; Finite 3; Finite (-7)]) as H.
  { apply Permutation_sym. apply (Permutation_cons_app [Finite 3; Finite (-7)] []).
    reflexivity. }
  split; [exact H|exact (getMiddleNumber_permutation H)].
Defined.

(** X2.  The middle number depends on the values only through the
    absolute values of the entries the loop keeps: taking absolute values
    beforehand, or removing the zeros, [NaN] and the infinities
    beforehand, gives the same result. *)
Theorem getMiddleNumber_normalised (values : list number) :
  getMiddleNumber (map Math_abs values) = getMiddleNumber values
  /\ getMiddleNumber (filter (fun v => negb (skipped v)) values)
     = getMiddleNumber values
  /\ getMiddleNumber (filteredAbsData values) = getMiddleNumber values.
Proof.
  split; [apply getMiddleNumber_of_kept, kept_abs|].
  split; [apply getMiddleNumber_of_kept, kept_filter|].
  rewrite filteredAbsData_kept. unfold kept.
  transitivity (getMiddleNumber (filter (fun v => negb (skipped v)) values));
    apply getMiddleNumber_of_kept; [apply kept_abs|apply kept_filter].
Qed.

(** X3.  The middle number is 0 when every value is a zero, [NaN] or an
    infinity (in particular when there is none); otherwise it is the
    absolute value of one of the other values, a finite number above
    0. *)
Theorem getMiddleNumber_zero_or_entry (values : list number) :
  (Forall (fun v => skipped v = true) values
   /\ getMiddleNumber values = Finite 0)
  \/ (exists v q,
        In v values /\ skipped v = false
        /\ getMiddleNumber values = Math_abs v
        /\ Math_abs v = Finite q /\ (0 < q)%Q).
Proof.
  rewrite getMiddleNumber_kept.
  pose proof (kept_positive values) as Hpos.
  destruct (kept values) as [|x l] eqn:E.
  - left. split; [|reflexivity].
    rewrite Forall_forall. intros v Hv.
    destruct (skipped v) eqn:Es; [reflexivity|]. exfalso.
    assert (In (Math_abs v) (kept values)) as Hin.
    { unfold kept. apply in_map, filter_In. split; [exact Hv|now rewrite Es]. }
    now rewrite E in Hin.
  - right.
    assert (In (nth (Nat.div2 (List.length (x :: l)))
                  (Array_sort descending (x :: l)) NaN) (kept values)) as Hin.
    { rewrite E. apply Permutation_in with (l := Array_sort descending (x :: l));
        [symmetry; apply Array_sort_perm|].
      apply nth_In.
      rewrite <- (Permutation_length (Array_sort_perm (x :: l))).
      apply div2_lt_length. }
    rewrite <- E in Hpos. rewrite Forall_forall in Hpos.
    destruct (Hpos _ Hin) as (q & Hq & Hq0).
    unfold kept in Hin. apply in_map_iff in Hin.
    destruct Hin as (v & Hv & Hin). apply filter_In in Hin.
    destruct Hin as [Hin Hs]. apply negb_true_iff in Hs.
    exists v, q. repeat split; try assumption; congruence.
Qed.

(** ** formatterFromData: pattern, unit and scale *)

Section FormatterMore.

Local Open Scope string_scope.

Fixpoint no_space (s : string) : bool :=
  match s with
  | "" => true
  | String c rest => negb (Ascii.eqb c " ") && no_space rest
  end.

Lemma append_empty_r (s : string) : s ++ "" = s.
Proof. induction s as [|c s IH]; simpl; [reflexivity|now rewrite IH]. Qed.

Lemma append_assoc (s t u : string) : (s ++ t) ++ u = s ++ t ++ u.
Proof. induction s as [|c s IH]; simpl; [reflexivity|now rewrite IH]. Qed.

Lemma split_space_no_space (s : string) :
  no_space s = true -> split_space s = [s].
Proof.
  induction s as [|c s IH]; simpl; [reflexivity|].
  intros H. apply andb_true_iff in H. destruct H as [Hc Hs].
  apply negb_true_iff in Hc. rewrite Hc, (IH Hs). reflexivity.
Qed.

Lemma split_space_first (body rest : string) :
  no_space body = true ->
  split_space (body ++ " " ++ rest) = body :: split_space rest.
Proof.
  induction body as [|c body IH]; simpl; [reflexivity|].
  intros H. apply andb_true_iff in H. destruct H as [Hc Hs].
  apply negb_true_iff in Hc. rewrite Hc. simpl in IH. rewrite (IH Hs).
  reflexivity.
Qed.

(** The unit is the word after the first space, when there is one. *)
Lemma unit_of_rendering (body unit : string) :
  no_space body = true -> no_space unit = true ->
  second_or_empty (split_space (body ++ " " ++ unit)) = unit
  /\ second_or_empty (split_space body) = "".
Proof.
  intros Hb Hu. rewrite split_space_first by assumption.
  rewrite !split_space_no_space by assumption. split; reflexivity.
Qed.

Lemma format_matches_unique (format nf nf' sp sp' : string) (t t' : FormatType) :
  format_matches format nf sp t -> format_matches format nf' sp' t' ->
  nf = nf' /\ sp = sp' /\ t = t'.
Proof.
  intros H H'. apply format_match_complete in H, H'.
  rewrite H in H'. injection H' as <- <- <-. repeat split.
Qed.

End FormatterMore.

(** X4.  The match of the format pattern is decided as the pattern reads:
    the matcher returns groups exactly when the format string is a run of
    code units that are not white space, then at most one space, then
    [a] or [b]; the groups put together give back the format string, and
    they are the only ones that do. *)
Theorem format_match_decides_pattern (format : string) :
  match format_match format with
  | Some (numberFormat, space, t) =>
      format = (numberFormat ++ space ++ FormatType_string t)%string
      /\ no_whitespace numberFormat = true
      /\ (space = EmptyString \/ space = " "%string)
      /\ forall numberFormat' space' t',
           format_matches format numberFormat' space' t' ->
           numberFormat' = numberFormat /\ space' = space /\ t' = t
  | None =>
      forall numberFormat space t,
        ~ format_matches format numberFormat space t
  end.
Proof.
  destruct (format_match format) as [[[nf sp] t]|] eqn:E.
  - pose proof E as H. apply format_match_sound in H.
    pose proof H as (Hf & Hnf & Hsp).
    split; [exact Hf|]. split; [exact Hnf|]. split; [exact Hsp|].
    intros nf' sp' t' H'.
    exact (@format_matches_unique format nf' nf sp' sp t' t H' H).
  - now apply format_match_None.
Qed.

(** X5.  When the pattern matches and the library renders the middle
    number as a body, one space and a unit of the table (neither holding
    a space), every finite input is rendered as the library's rendering of
    the input divided by the scale of that unit, followed by the space
    group of the pattern and the unit. *)
Theorem formatterFromData_unit_rendering
  (numeral_format : number -> string -> string)
  (values : list number) (format numberFormat space body unit : string)
  (formatType : FormatType) (k q : Q) :
  format_matches format numberFormat space formatType ->
  numeral_format (getMiddleNumber values)
    ("0 " ++ FormatType_string formatType)%string
    = (body ++ " " ++ unit)%string ->
  no_space body = true -> no_space unit = true ->
  scales formatType unit = Some k ->
  nonempty unit = true ->
  formatterFromData numeral_format values format (Finite q)
  = (numeral_format (Finite (q / k)) numberFormat ++ space ++ unit)%string.
Proof.
  intros Hm Hr Hb Hu Hk Hne. apply format_match_complete in Hm.
  unfold formatterFromData. rewrite Hm, Hr.
  destruct (@unit_of_rendering body unit Hb Hu) as [-> _].
  rewrite Hne. cbn [isNaN isFinite negb orb].
  now rewrite (@div_scale_Some q k formatType unit Hk).
Qed.

(** A stand-in for the library that abbreviates millions. *)
Definition numeral_millions (n : number) (fmt : string) : string :=
  (if String.eqb fmt "0 a" then "3 m" else fmt)%string.

Lemma formatterFromData_unit_rendering_witness :
  formatterFromData numeral_millions [Finite 3000000] "0.0a" (Finite 1500000)
  = "0.0m"%string.
Proof.
  refine (@formatterFromData_unit_rendering numeral_millions [Finite 3000000]
            "0.0a" "0.0" "" "3" "m" type_a 1000000 1500000 _ _ _ _ _ _);
    try reflexivity.
  apply format_match_spec. reflexivity.
Defined.

(** X7.  The formatter depends on the values only through the absolute
    values of the entries that are not zero, [NaN] or infinite: taking
    absolute values or dropping the other entries beforehand gives a
    formatter with the same results. *)
Theorem formatterFromData_values_normalised
  (numeral_format : number -> string -> string)
  (values : list number) (format : string) (n : number) :
  formatterFromData numeral_format (map Math_abs values) format n
  = formatterFromData numeral_format values format n
  /\ formatterFromData numeral_format
       (filter (fun v => negb (skipped v)) values) format n
     = formatterFromData numeral_format values format n.
Proof.
  unfold formatterFromData.
  rewrite (@getMiddleNumber_of_kept _ _ (kept_abs values)).
  rewrite (@getMiddleNumber_of_kept _ _ (kept_filter values)).
  split; reflexivity.
Qed.

(** ** formatValue, formatNumberRange and the clause formatter *)

Section ClauseMore.

Local Open Scope string_scope.

(** [clause] with its collection of values replaced; a time filter has
    none that the formatter counts. *)
Definition with_values (clause : FilterClause) (values : list Value)
  : FilterClause :=
  match clause with
  | BooleanFilterClause _ => BooleanFilterClause values
  | NumberFilterClause _ => NumberFilterClause values
  | StringFilterClause action _ => StringFilterClause action values
  | TimeFilter c => TimeFilter c
  end.

Lemma nonempty_String_append (c : ascii) (s t : string) :
  nonempty (String c s ++ t) = true.
Proof. reflexivity. Qed.

Lemma nonempty_append_r (s t : string) :
  nonempty t = true -> nonempty (s ++ t) = true.
Proof. intros H. destruct s; [exact H|reflexivity]. Qed.

End ClauseMore.

(** X8.  The time zone and the display-year option reach the result of
    [formatValue] only for a time range: a time range is handed to
    [formatTimeRange] with both, and every other value is formatted the
    same whatever they are. *)
Theorem formatValue_timezone_only_for_time_ranges
  (fraction_toString : Q -> string)
  (formatTimeRange : TimeRange -> option Timezone -> option DisplayYear -> string)
  (value : Value) (timezone : option Timezone)
  (displayYear : option DisplayYear) :
  match value with
  | VTimeRange r =>
      formatValue fraction_toString formatTimeRange value timezone displayYear
      = formatTimeRange r timezone displayYear
  | _ =>
      formatValue fraction_toString formatTimeRange value timezone displayYear
      = formatValue fraction_toString formatTimeRange value None None
  end.
Proof. destruct value; now simp formatValue. Qed.

(** X10.  The dimension reaches the result of [formatFilterClause] only
    for a clause that is not a time filter, and the time zone only for a
    fixed time filter: the result for a relative time filter depends on
    neither. *)
Theorem formatFilterClause_independence
  (fraction_toString : Q -> string)
  (formatTimeRange : TimeRange -> option Timezone -> option DisplayYear -> string)
  (TimeRange_fromJS : option DateRange -> TimeRange)
  (STRINGS : Strings)
  (dimension dimension' : Dimension) (clause : FilterClause)
  (timezone timezone' : Timezone) :
  let format :=
    formatFilterClause fraction_toString formatTimeRange TimeRange_fromJS
      STRINGS in
  match clause with
  | TimeFilter (FixedTimeFilterClause _) =>
      format dimension clause timezone = format dimension' clause timezone
  | TimeFilter (RelativeTimeFilterClause _ _) =>
      format dimension clause timezone = format dimension' clause timezone'
  | _ =>
      format dimension clause timezone = format dimension clause timezone'
  end.
Proof.
  intros format. destruct clause as [vs|vs|action vs|[ranges|period duration]];
    reflexivity.
Qed.

(** X11.  The result for a clause with more than one value shows how many
    values there are and not which: replacing the values by as many
    others gives the same result. *)
Theorem formatFilterClause_count_only
  (fraction_toString : Q -> string)
  (formatTimeRange : TimeRange -> option Timezone -> option DisplayYear -> string)
  (TimeRange_fromJS : option DateRange -> TimeRange)
  (STRINGS : Strings)
  (dimension : Dimension) (clause : FilterClause) (values : list Value)
  (timezone : Timezone) :
  (1 < List.length (clause_values clause))%nat ->
  List.length values = List.length (clause_values clause) ->
  formatFilterClause fraction_toString formatTimeRange TimeRange_fromJS
    STRINGS dimension (with_values clause values) timezone
  = formatFilterClause fraction_toString formatTimeRange TimeRange_fromJS
      STRINGS dimension clause timezone.
Proof.
  intros Hn Hl.
  destruct clause as [vs|vs|action vs|c]; [| | |reflexivity];
    cbn [clause_values] in Hn, Hl;
    unfold formatFilterClause, getFormattedClause, getClauseLabel,
      getFilterClauseValues;
    cbn [clause_title clause_text with_values as_time_filter isTimeFilter
           clause_values];
    rewrite Hl; apply Nat.ltb_lt in Hn; rewrite Hn; reflexivity.
Qed.

Lemma formatFilterClause_count_only_witness :
  (1 < List.length [VString "a"%string; VString "b"%string])%nat
  /\ formatFilterClause no_fraction no_time_range no_fromJS strings_en
       (mkDimension "Page"%string)
       (StringFilterClause MATCH [VString "x"%string; VNumber (Finite 7)])
       "Etc/UTC"%string
     = formatFilterClause no_fraction no_time_range no_fromJS strings_en
         (mkDimension "Page"%string)
         (StringFilterClause MATCH [VString "a"%string; VString "b"%string]) "Etc/UTC"%string.
Proof.
  split; [simpl; lia|].
  refine (@formatFilterClause_count_only no_fraction no_time_range no_fromJS
            strings_en (mkDimension "Page"%string)
            (StringFilterClause MATCH [VString "a"%string; VString "b"%string])
            [VString "x"%string; VNumber (Finite 7)] "Etc/UTC"%string _ _);
    [simpl; lia|reflexivity].
Defined.

(** X12.  For a clause that is not a time filter the result is never the
    empty string, whatever the dimension title and the values. *)
Theorem formatFilterClause_nonempty
  (fraction_toString : Q -> string)
  (formatTimeRange : TimeRange -> option Timezone -> option DisplayYear -> string)
  (TimeRange_fromJS : option DateRange -> TimeRange)
  (STRINGS : Strings)
  (dimension : Dimension) (clause : FilterClause) (timezone : Timezone) :
  isTimeFilter clause
  || nonempty (formatFilterClause fraction_toString formatTimeRange
                 TimeRange_fromJS STRINGS dimension clause timezone) = true.
Proof.
  destruct (isTimeFilter clause) eqn:Et; [reflexivity|]. simpl.
  unfold formatFilterClause, getFormattedClause.
  cbn [clause_title clause_text]. unfold getClauseLabel. rewrite Et.
  fold (delimiter_of clause).
  destruct (Nat.ltb 1 (List.length (clause_values clause))) eqn:En.
  - assert (nonempty (getFilterClauseValues fraction_toString formatTimeRange
                        TimeRange_fromJS STRINGS clause timezone) = true) as Hv.
    { unfold getFilterClauseValues.
      destruct clause as [vs|vs|action vs|c]; [| | |discriminate];
        cbn [as_time_filter clause_values] in *; rewrite En;
        [reflexivity|reflexivity|destruct action; reflexivity]. }
    destruct (nonempty (title dimension)) eqn:Ed; [|exact Hv].
    destruct (title dimension); [discriminate|reflexivity].
  - rewrite nonempty_append, nonempty_delimiter, orb_true_r.
    rewrite nonempty_append, nonempty_append, nonempty_delimiter, orb_true_r.
    reflexivity.
Qed.

(** X13.  A clause without any value is rendered with the word
    "undefined" for its value: after the dimension title and ":" for a
    boolean, number or string IN clause, between slashes after " ~" for a
    string MATCH clause, and between double quotes after " ~" for a
    string CONTAINS clause. *)
Theorem formatFilterClause_no_values
  (fraction_toString : Q -> string)
  (formatTimeRange : TimeRange -> option Timezone -> option DisplayYear -> string)
  (TimeRange_fromJS : option DateRange -> TimeRange)
  (STRINGS : Strings)
  (dimension : Dimension) (timezone : Timezone) :
  let format clause :=
    formatFilterClause fraction_toString formatTimeRange TimeRange_fromJS
      STRINGS dimension clause timezone in
  format (BooleanFilterClause []) = ((title dimension ++ ":") ++ " undefined")%string
  /\ format (NumberFilterClause []) = ((title dimension ++ ":") ++ " undefined")%string
  /\ format (StringFilterClause IN [])
     = ((title dimension ++ ":") ++ " undefined")%string
  /\ format (StringFilterClause MATCH [])
     = ((title dimension ++ " ~") ++ " /undefined/")%string
  /\ format (StringFilterClause CONTAINS [])
     = ((title dimension ++ " ~") ++ " " ++ double_quote ++ "undefined"
          ++ double_quote)%string.
Proof.
  intros format. unfold format, formatFilterClause, getFormattedClause.
  cbn [clause_title clause_text]. unfold getClauseLabel, getFilterClauseValues.
  cbn [as_time_filter isTimeFilter clause_values List.length Nat.ltb Nat.leb
         is_string_action orb first].
  simp formatValue.
  rewrite !nonempty_append. cbn [nonempty orb]. rewrite !orb_true_r.
  repeat split.
Qed.

(** ** Measures-definition converter: the other direction *)

Section ConverterMore.

Import MeasuresDefinition.

(** The elements of a sequence in the order of their first occurrence. *)
Fixpoint keep_first (l : list string) : list string :=
  match l with
  | [] => []
  | x :: rest => x :: filter (fun y => negb (String.eqb x y)) (keep_first rest)
  end.

Lemma filter_swap (A : Type) (f g : A -> bool) (l : list A) :
  filter f (filter g l) = filter g (filter f l).
Proof.
  induction l as [|x l IH]; simpl; [reflexivity|].
  destruct (f x) eqn:Ef, (g x) eqn:Eg; simpl; rewrite ?Ef, ?Eg, IH; reflexivity.
Qed.

Lemma filter_filter_and (A : Type) (f g : A -> bool) (l : list A) :
  filter f (filter g l) = filter (fun y => g y && f y) l.
Proof.
  induction l as [|x l IH]; simpl; [reflexivity|].
  destruct (g x); simpl; [destruct (f x)|]; now rewrite IH.
Qed.

Lemma filter_absorb (p : string -> bool) (x : string) (l : list string) :
  p x = false ->
  filter p (filter (fun y => negb (String.eqb x y)) l) = filter p l.
Proof.
  intros Hx. induction l as [|y l IH]; simpl; [reflexivity|].
  destruct (String.eqb x y) eqn:E; simpl.
  - apply String.eqb_eq in E. subst y. now rewrite Hx.
  - now rewrite IH.
Qed.

Lemma keep_first_filter (p : string -> bool) (l : list string) :
  keep_first (filter p l) = filter p (keep_first l).
Proof.
  induction l as [|x l IH]; simpl; [reflexivity|].
  destruct (p x) eqn:Ex; simpl.
  - rewrite IH. f_equal. apply filter_swap.
  - rewrite IH. symmetry. now apply filter_absorb.
Qed.

Lemma fold_add_keep_first (l : list string) (s : OrderedSet) :
  toArray (fold_left OrderedSet_add l s)
  = toArray s
    ++ keep_first
         (filter (fun y => negb (existsb (String.eqb y) (toArray s))) l).
Proof.
  revert s. induction l as [|x l IH]; intros s; simpl.
  - now rewrite app_nil_r.
  - rewrite IH. simpl. unfold add_element.
    destruct (existsb (String.eqb x) (toArray s)) eqn:Ex; simpl; [reflexivity|].
    rewrite <- app_assoc. simpl. f_equal. f_equal.
    rewrite <- keep_first_filter. f_equal.
    rewrite filter_filter_and. apply filter_ext. intros y.
    rewrite existsb_app. simpl.
    rewrite orb_false_r, negb_orb. now rewrite (String.eqb_sym y x).
Qed.

End ConverterMore.

(** X14.  [toEssenceMeasures] keeps each element of the sequence once, at
    the place of its first occurrence. *)
Theorem toEssenceMeasures_keeps_first_occurrences
  (js : MeasuresDefinition.MeasuresDefinitionJS) :
  MeasuresDefinition.toArray
    (MeasuresDefinition.multi (MeasuresDefinition.toEssenceMeasures js))
  = keep_first (MeasuresDefinition.js_multi js).
Proof.
  unfold MeasuresDefinition.toEssenceMeasures, MeasuresDefinition.createMeasures.
  cbn [MeasuresDefinition.multi]. unfold MeasuresDefinition.OrderedSet_of.
  rewrite fold_add_keep_first. simpl. f_equal.
  induction (MeasuresDefinition.js_multi js) as [|x l IH]; simpl;
    [reflexivity|now rewrite IH].
Qed.

(** X15.  A definition whose sequence has no duplicates comes back
    unchanged from [toEssenceMeasures] followed by
    [fromEssenceMeasures]. *)
Theorem fromEssenceMeasures_toEssenceMeasures
  (js : MeasuresDefinition.MeasuresDefinitionJS) :
  NoDup (MeasuresDefinition.js_multi js) ->
  MeasuresDefinition.fromEssenceMeasures
    (MeasuresDefinition.toEssenceMeasures js) = js.
Proof.
  intros Hnd. destruct js as [b s l].
  unfold MeasuresDefinition.fromEssenceMeasures,
    MeasuresDefinition.toEssenceMeasures, MeasuresDefinition.createMeasures.
  cbn. f_equal. unfold MeasuresDefinition.OrderedSet_of.
  now rewrite OrderedSet_of_NoDup_from.
Qed.

Lemma fromEssenceMeasures_toEssenceMeasures_witness :
  NoDup ["clicks"; "revenue"]%string
  /\ MeasuresDefinition.fromEssenceMeasures
       (MeasuresDefinition.toEssenceMeasures
          (MeasuresDefinition.mkMeasuresDefinitionJS true "clicks"
             ["clicks"; "revenue"]%string))
     = MeasuresDefinition.mkMeasuresDefinitionJS true "clicks"
         ["clicks"; "revenue"]%string.
Proof.
  assert (NoDup ["clicks"; "revenue"]%string) as H.
  { repeat constructor; simpl; intuition discriminate. }
  split; [exact H|].
  exact (@fromEssenceMeasures_toEssenceMeasures
           (MeasuresDefinition.mkMeasuresDefinitionJS true "clicks"
              ["clicks"; "revenue"]%string) H).
Defined.

(** X16.  Converting a definition to [Measures] and back normalises it:
    doing so a second time changes nothing more. *)
Theorem measures_definition_normalisation_idempotent
  (js : MeasuresDefinition.MeasuresDefinitionJS) :
  let normalise js :=
    MeasuresDefinition.fromEssenceMeasures
      (MeasuresDefinition.toEssenceMeasures js) in
  normalise (normalise js) = normalise js.
Proof.
  intros normalise. unfold normalise.
  unfold MeasuresDefinition.fromEssenceMeasures at 1 3.
  unfold MeasuresDefinition.toEssenceMeasures at 1,
    MeasuresDefinition.createMeasures at 1.
  cbn [MeasuresDefinition.isMulti MeasuresDefinition.single
         MeasuresDefinition.multi MeasuresDefinition.js_isMulti
         MeasuresDefinition.js_single MeasuresDefinition.js_multi].
  f_equal. apply OrderedSet_of_toArray.
Qed.

(** ** DimensionMeasurePanel: bounds, panes and events *)

Section PanelMore.

Import Panel.

Lemma run_app (c : Component) (events events' : list Event) :
  run c (events ++ events')
  = match run c events with
    | Some c' => run c' events'
    | None => None
    end.
Proof.
  revert c. induction events as [|e events IH]; intros c; simpl; [reflexivity|].
  destruct (step c e); [apply IH|reflexivity].
Qed.

Lemma last_cons_default (A : Type) (l : list A) (a d : A) :
  last (a :: l) d = last l a.
Proof.
  revert a d. induction l as [|b l IH]; intros a d; [reflexivity|].
  change (last (a :: b :: l) d) with (last (b :: l) d).
  rewrite IH. symmetry. apply IH.
Qed.

Lemma step_keeps_ref (c c' : Component) (e : Event) :
  step c e = Some c' -> showResizeHandle (render c) = true ->
  showResizeHandle (render c') = true.
Proof.
  unfold render. cbn [showResizeHandle].
  destruct e as [container height|raw|height]; simpl.
  - intros [= <-]. destruct container; simpl; [reflexivity|tauto].
  - unfold ResizeHandle_drag. destruct (showResizeHandle (render c));
      [|discriminate]. intros [= <-]. simpl. tauto.
  - unfold saveContainerRect. destruct (containerRef c); [|discriminate].
    intros [= <-]. reflexivity.
Qed.

End PanelMore.

(** X17.  The two bounds are mirror images of each other in the
    container: for every finite height, [minDividerPosition] and
    [maxDividerPosition] add up to the height; the lower one is at most
    the minimum panel size and at most the height, the upper one at least
    0 and at least the height less the minimum panel size. *)
Theorem dividerConstraints_mirror (h : Q) :
  exists a b,
    Panel.dividerConstraints (Finite h)
    = Panel.mkConstraints (Finite a) (Finite b)
    /\ (a + b == h)%Q
    /\ (a <= 100)%Q /\ (a <= h)%Q /\ (0 <= b)%Q /\ (h - 100 <= b)%Q.
Proof.
  unfold Panel.dividerConstraints, Panel.MIN_PANEL_SIZE, Math_min, Math_max,
    sub, leb.
  destruct (Qle_bool 100 h) eqn:E1; destruct (Qle_bool (h - 100) 0) eqn:E2.
  - apply Qle_bool_iff in E1, E2. exists 100, 0.
    split; [reflexivity|]. repeat split; lra.
  - apply Qle_bool_iff in E1. apply Qle_bool_false in E2.
    exists 100, (h - 100). split; [reflexivity|]. repeat split; lra.
  - apply Qle_bool_false in E1. apply Qle_bool_iff in E2.
    exists h, 0. split; [reflexivity|]. repeat split; lra.
  - apply Qle_bool_false in E1, E2. lra.
Qed.

(** X19.  Once the container has been measured the resize handle stays:
    after any further events that the component handles, ref callbacks
    with a null container included, the handle is still rendered and the
    props are the same. *)
Theorem resize_handle_stays
  (c c' : Panel.Component) (events : list Panel.Event) :
  Panel.showResizeHandle (Panel.render c) = true ->
  Panel.run c events = Some c' ->
  Panel.showResizeHandle (Panel.render c') = true
  /\ Panel.props c' = Panel.props c.
Proof.
  revert c. induction events as [|e events IH]; intros c Hs; simpl.
  - intros [= <-]. now split.
  - destruct (Panel.step c e) as [c1|] eqn:E; [|discriminate].
    intros Hrun.
    destruct (IH c1 (@step_keeps_ref c c1 e E Hs) Hrun) as [H1 H2].
    split; [exact H1|]. rewrite H2. exact (@step_props c c1 e E).
Qed.

Lemma resize_handle_stays_witness :
  let c := Panel.calculateInitialPosition (Panel.initial (Panel.mkProps 1 1))
             (Some 0%nat) (Finite 400) in
  let events := [Panel.RefCallback None (Finite 0);
                 Panel.WindowResize (Finite 300); Panel.Drag (Finite 120)] in
  Panel.showResizeHandle (Panel.render c) = true
  /\ exists c', Panel.run c events = Some c'
                /\ Panel.showResizeHandle (Panel.render c') = true.
Proof.
  intros c events. split; [reflexivity|].
  eexists. split; [reflexivity|].
  exact (proj1 (@resize_handle_stays c _ events eq_refl eq_refl)).
Defined.

(** X20.  Before the container has been measured there is no resize
    handle to drag, a window resize fails on the null [containerRef], and
    a ref callback with a null container leaves the component as it
    is. *)
Theorem unmeasured_component_events
  (c : Panel.Component) (height raw : number) :
  Panel.containerRef c = None ->
  Panel.showResizeHandle (Panel.render c) = false
  /\ Panel.step c (Panel.Drag raw) = None
  /\ Panel.step c (Panel.WindowResize height) = None
  /\ Panel.step c (Panel.RefCallback None height) = Some c.
Proof.
  intros H. unfold Panel.step, Panel.ResizeHandle_drag, Panel.saveContainerRect,
    Panel.render. cbn [Panel.showResizeHandle]. rewrite H. repeat split.
Qed.

Lemma unmeasured_component_events_witness :
  Panel.containerRef (Panel.initial (Panel.mkProps 2 3)) = None
  /\ Panel.step (Panel.initial (Panel.mkProps 2 3))
       (Panel.WindowResize (Finite 500)) = None.
Proof.
  split; [reflexivity|].
  exact (proj1 (proj2 (proj2 (@unmeasured_component_events
                                (Panel.initial (Panel.mkProps 2 3))
                                (Finite 500) (Finite 0) eq_refl)))).
Defined.

(** X21.  Window resizes only replace the container height: after any
    number of them the divider position is what it was, and the
    container height is the last one measured. *)
Theorem window_resizes_keep_position
  (c c' : Panel.Component) (heights : list number) :
  Panel.run c (map Panel.WindowResize heights) = Some c' ->
  Panel.dividerPosition (Panel.state c') = Panel.dividerPosition (Panel.state c)
  /\ Panel.containerHeight (Panel.state c')
     = last heights (Panel.containerHeight (Panel.state c))
  /\ Panel.containerRef c' = Panel.containerRef c.
Proof.
  revert c. induction heights as [|h heights IH]; intros c;
    cbn [map Panel.run Panel.step].
  - intros [= <-]. repeat split.
  - unfold Panel.saveContainerRect.
    destruct (Panel.containerRef c) as [el|] eqn:Er; [|discriminate].
    intros Hrun. apply IH in Hrun.
    cbn [Panel.state Panel.dividerPosition Panel.containerHeight
           Panel.containerRef] in Hrun.
    destruct Hrun as (H1 & H2 & H3). rewrite H1, H2, H3.
    repeat split. symmetry. apply last_cons_default.
Qed.

Lemma window_resizes_keep_position_witness :
  let c := Panel.calculateInitialPosition (Panel.initial (Panel.mkProps 1 1))
             (Some 0%nat) (Finite 400) in
  exists c',
    Panel.run c (map Panel.WindowResize [Finite 300; Finite 250]) = Some c'
    /\ Panel.dividerPosition (Panel.state c') = Panel.dividerPosition (Panel.state c).
Proof.
  intros c. eexists. split; [reflexivity|].
  exact (proj1 (@window_resizes_keep_position c _ [Finite 300; Finite 250]
                  eq_refl)).
Defined.

(** X23.  Drags do not add up: the position after two drags in a row is
    the position the second one alone would have given, and the container
    height is untouched. *)
Theorem last_drag_wins (c : Panel.Component) (raw raw' : number) :
  Panel.run c [Panel.Drag raw; Panel.Drag raw']
  = Panel.run c [Panel.Drag raw']
  /\ forall c', Panel.step c (Panel.Drag raw) = Some c' ->
       Panel.containerHeight (Panel.state c')
       = Panel.containerHeight (Panel.state c).
Proof.
  unfold Panel.run, Panel.step, Panel.ResizeHandle_drag, Panel.render.
  cbn [Panel.showResizeHandle Panel.handle_min Panel.handle_max].
  destruct (Panel.containerRef c) eqn:E; split; try reflexivity.
  - cbn [Panel.saveDividerPosition Panel.containerRef Panel.state
           Panel.containerHeight]. unfold Panel.saveDividerPosition.
    cbn [Panel.containerRef Panel.state Panel.containerHeight Panel.props].
    rewrite E. reflexivity.
  - intros c' [= <-]. reflexivity.
  - intros c' [=].
Qed.

Lemma last_drag_wins_witness :
  let c := Panel.calculateInitialPosition (Panel.initial (Panel.mkProps 1 1))
             (Some 0%nat) (Finite 400) in
  exists c',
    Panel.step c (Panel.Drag (Finite 250)) = Some c'
    /\ Panel.containerHeight (Panel.state c') = Finite 400.
Proof.
  intros c. eexists. split; [reflexivity|].
  exact (proj2 (last_drag_wins c (Finite 250) (Finite 0)) _ eq_refl).
Defined.

(** * Revised statements *)

(** ** DimensionMeasurePanel: the invariant along any sequence of events *)

Section PanelTraces.

Import Panel.

(** A position clamped to the bounds of a finite height lies within them
    exactly when the bounds are consistent. *)
Lemma clamped_within_iff (x : number) (h : Q) :
  isNaN x = false ->
  let cs := dividerConstraints (Finite h) in
  within_constraints
    {| dividerPosition := clamp x (minDividerPosition cs) (maxDividerPosition cs);
       containerHeight := Finite h |} = consistent (Finite h).
Proof.
  intros Hx cs. destruct (consistent (Finite h)) eqn:Hc.
  - now apply clamped_within.
  - destruct (within_constraints _) eqn:Hw; [|reflexivity].
    apply within_consistent with (h := h) in Hw; [congruence|reflexivity].
Qed.

(** The last event of a sequence that is not a ref callback with a null
    container (such a callback returns at once). *)
Definition last_change (events : list Event) : option Event :=
  fold_left
    (fun found e =>
       match e with
       | RefCallback None _ => found
       | _ => Some e
       end)
    events None.

(** What holds of the state, by the event that last changed it: the
    component as constructed is within its bounds; after a measurement
    (of a data cube that has a dimension or a measure) and after a drag
    the position is within the bounds exactly when these are consistent;
    nothing is said after a window resize. *)
Definition holds_after (found : option Event) (c : Component) : Prop :=
  match found with
  | None => within_constraints (state c) = true
  | Some (Drag _) =>
      within_constraints (state c) = consistent (containerHeight (state c))
  | Some (RefCallback _ _) =>
      (0 < measuresCount (props c) + dimensionsCount (props c))%nat ->
      within_constraints (state c) = consistent (containerHeight (state c))
  | Some (WindowResize _) => True
  end.

Definition finite_height (c : Component) : Prop :=
  exists h, containerHeight (state c) = Finite h.

Lemma step_finite_height (c c' : Component) (e : Event) :
  dom_event e = true -> finite_height c -> step c e = Some c' ->
  finite_height c'.
Proof.
  intros He Hc Hs. destruct e as [[element|] height|raw|height]; simpl in *.
  - injection Hs as <-. destruct height as [| |h]; try discriminate.
    now exists h.
  - now injection Hs as <-.
  - destruct (ResizeHandle_drag (render c) raw); [|discriminate].
    now injection Hs as <-.
  - unfold saveContainerRect in Hs. destruct (containerRef c); [|discriminate].
    injection Hs as <-. destruct height as [| |h]; try discriminate.
    now exists h.
Qed.

Lemma step_holds_after (c c' : Component) (e : Event) (found : option Event) :
  dom_event e = true -> finite_height c -> holds_after found c ->
  step c e = Some c' ->
  holds_after
    match e with RefCallback None _ => found | _ => Some e end c'.
Proof.
  intros He [h Hh] Hc Hs. destruct e as [[element|] height|raw|height]; simpl in *.
  - injection Hs as <-. destruct height as [| |q]; try discriminate.
    intros Hp. unfold calculateInitialPosition. cbn [state containerHeight].
    apply clamped_within_iff. apply scaled_height_not_NaN. exact Hp.
  - now injection Hs as <-.
  - unfold ResizeHandle_drag in Hs.
    destruct (showResizeHandle (render c)); [|discriminate].
    injection Hs as <-. unfold saveDividerPosition, render.
    cbn [state handle_min handle_max containerHeight dividerPosition].
    rewrite Hh. apply clamped_within_iff.
    destruct raw; try discriminate; reflexivity.
  - exact I.
Qed.

Lemma run_holds_after (events : list Event) (c c' : Component)
  (found : option Event) :
  forallb dom_event events = true -> finite_height c -> holds_after found c ->
  run c events = Some c' ->
  holds_after
    (fold_left
       (fun found e =>
          match e with RefCallback None _ => found | _ => Some e end)
       events found) c'
  /\ finite_height c'.
Proof.
  revert c found. induction events as [|e events IH]; intros c found He Hf Hc;
    simpl.
  - intros [= <-]. now split.
  - simpl in He. apply andb_true_iff in He. destruct He as [He Hrest].
    destruct (step c e) as [c1|] eqn:Hs; [|discriminate].
    apply IH; [exact Hrest| |].
    + exact (@step_finite_height c c1 e He Hf Hs).
    + exact (@step_holds_after c c1 e found He Hf Hc Hs).
Qed.

End PanelTraces.

(** C5 (as amended).  Along every sequence of events that the component
    handles (measurements, drags and window resizes in any order, the
    DOM reporting finite heights and coordinates), consider the event
    that last changed the state.  If there is none, the state satisfies
    [minDividerPosition <= dividerPosition <= maxDividerPosition].  If it
    is a drag, or a measurement for a data cube with at least one
    dimension or measure, the state satisfies the two inequalities
    exactly when the bounds that [dividerConstraints] computes from the
    current [containerHeight] are consistent, that is when the height is
    at most 0 or at least 200.  The state right after a window resize is
    left open. *)
Theorem layout_invariant_after_last_change
  (p : Panel.Props) (events : list Panel.Event) (c : Panel.Component) :
  forallb Panel.dom_event events = true ->
  Panel.run (Panel.initial p) events = Some c ->
  holds_after (last_change events) c
  /\ exists h,
       Panel.containerHeight (Panel.state c) = Finite h
       /\ (Panel.consistent (Finite h) = true <-> (h <= 0)%Q \/ (200 <= h)%Q).
Proof.
  intros He Hrun.
  destruct (@run_holds_after events (Panel.initial p) c None He) as [H [h Hh]];
    [now exists (2 * 100)%Q|reflexivity|exact Hrun|].
  split; [exact H|]. exists h. split; [exact Hh|apply consistent_iff].
Qed.

Lemma layout_invariant_after_last_change_witness :
  let events := [Panel.RefCallback (Some 0%nat) (Finite 400);
                 Panel.WindowResize (Finite 250);
                 Panel.Drag (Finite 1000);
                 Panel.RefCallback None (Finite 0)] in
  forallb Panel.dom_event events = true
  /\ exists c,
       Panel.run (Panel.initial (Panel.mkProps 1 1)) events = Some c
       /\ Panel.dividerPosition (Panel.state c) = Finite (250 - 100)
       /\ Panel.within_constraints (Panel.state c)
          = Panel.consistent (Panel.containerHeight (Panel.state c)).
Proof.
  intros events. split; [reflexivity|].
  eexists. split; [reflexivity|]. split; [reflexivity|].
  exact (proj1 (@layout_invariant_after_last_change (Panel.mkProps 1 1) events
                  _ eq_refl eq_refl)).
Defined.

(** ** Extras restated *)

(** X9.  [formatNumberRange] never shows the [bounds] of a range, and
    spells an infinite bound "Infinity" or "-Infinity" at either end,
    whatever the other end is. *)
Theorem formatNumberRange_hides_bounds
  (fraction_toString : Q -> string)
  (formatTimeRange : TimeRange -> option Timezone -> option DisplayYear -> string)
  (s e : option number) (bounds bounds' : string) (negative : bool) :
  let fmtRange := formatNumberRange fraction_toString formatTimeRange in
  let infinity := (if negative then "-Infinity" else "Infinity")%string in
  fmtRange (mkNumberRange s e bounds) = fmtRange (mkNumberRange s e bounds')
  /\ fmtRange (mkNumberRange (Some (Infinity negative)) e bounds)
     = (infinity ++ " to " ++ render_bound fraction_toString e)%string
  /\ fmtRange (mkNumberRange s (Some (Infinity negative)) bounds)
     = (render_bound fraction_toString s ++ " to " ++ infinity)%string.
Proof.
  intros fmtRange infinity. unfold fmtRange, infinity.
  rewrite !formatNumberRange_bounds. cbn [start end_].
  assert (render_bound fraction_toString (Some (Infinity negative))
          = (if negative then "-Infinity" else "Infinity")%string) as E
    by (destruct negative; reflexivity).
  rewrite E. repeat split.
Qed.

Example formatNumberRange_below_five
  (fraction_toString : Q -> string)
  (formatTimeRange : TimeRange -> option Timezone -> option DisplayYear -> string) :
  formatNumberRange fraction_toString formatTimeRange
    (mkNumberRange (Some (Infinity true)) (Some (Finite 5)) "()"%string)
  = "-Infinity to 5"%string.
Proof. rewrite formatNumberRange_bounds. reflexivity. Qed.

(** X18.  In a container at least twice the minimum panel size high, a
    state that satisfies the two bounds gives the dimension list at least
    the minimum panel size (100) and leaves at least as much below the
    divider, so that the measure list, which also makes room for the
    resize handle (12), is rendered at least 88 high. *)
Theorem render_pane_minimum_heights (c : Panel.Component) (h : Q) :
  Panel.containerHeight (Panel.state c) = Finite h ->
  (200 <= h)%Q ->
  Panel.within_constraints (Panel.state c) = true ->
  exists p m,
    Panel.dimensionListHeight (Panel.render c) = Finite p
    /\ Panel.measureListHeight (Panel.render c) = Finite m
    /\ (100 <= p)%Q /\ (p <= h - 100)%Q /\ (88 <= m)%Q.
Proof.
  intros Hh H200 Hw. unfold Panel.within_constraints in Hw. rewrite Hh in Hw.
  unfold Panel.dividerConstraints, Panel.MIN_PANEL_SIZE, Math_min, Math_max,
    sub, leb in Hw.
  cbn [Panel.minDividerPosition Panel.maxDividerPosition] in Hw.
  assert (Qle_bool 100 h = true) as E1 by (apply Qle_bool_iff; lra).
  assert (Qle_bool (h - 100) 0 = false) as E2 by (apply Qle_bool_false; lra).
  rewrite E1, E2 in Hw. apply andb_true_iff in Hw. destruct Hw as [H1 H2].
  unfold Panel.render. cbn [Panel.dimensionListHeight Panel.measureListHeight].
  rewrite Hh.
  destruct (Panel.dividerPosition (Panel.state c)) as [|s|p]; try discriminate.
  - destruct s; discriminate.
  - apply Qle_bool_iff in H1, H2. exists p, (h - p - 12)%Q.
    split; [reflexivity|]. split; [reflexivity|]. repeat split; lra.
Qed.

Lemma render_pane_minimum_heights_witness :
  (200 <= 400)%Q
  /\ exists p m,
       Panel.dimensionListHeight
         (Panel.render
            (Panel.calculateInitialPosition (Panel.initial (Panel.mkProps 3 1))
               (Some 0%nat) (Finite 400))) = Finite p
       /\ Panel.measureListHeight
            (Panel.render
               (Panel.calculateInitialPosition
                  (Panel.initial (Panel.mkProps 3 1)) (Some 0%nat) (Finite 400)))
          = Finite m
       /\ (100 <= p)%Q /\ (p <= 400 - 100)%Q /\ (88 <= m)%Q.
Proof.
  assert (200 <= 400)%Q as H by (unfold Qle; simpl; lia).
  split; [exact H|].
  exact (@render_pane_minimum_heights
           (Panel.calculateInitialPosition (Panel.initial (Panel.mkProps 3 1))
              (Some 0%nat) (Finite 400)) 400 eq_refl H eq_refl).
Defined.

(** X22.  In a container at least twice the minimum panel size high, with
    at least one dimension or measure, the mount-time measurement puts
    the divider at the product [containerHeight * ratio] as it is
    computed when that lies between 100 and the height less 100, at 100
    when the product is less and at the height less 100 when it is more.
    The product is a finite number; its digits are not part of the
    statement. *)
Theorem calculateInitialPosition_clamped_product
  (c : Panel.Component) (element : Panel.Element) (h : Q) :
  (200 <= h)%Q ->
  (0 < Panel.measuresCount (Panel.props c)
       + Panel.dimensionsCount (Panel.props c))%nat ->
  let c' := Panel.calculateInitialPosition c (Some element) (Finite h) in
  let product :=
    mul (Finite h)
      (div (of_nat (Panel.dimensionsCount (Panel.props c)))
         (of_nat (Panel.measuresCount (Panel.props c)
                  + Panel.dimensionsCount (Panel.props c)))) in
  exists x p,
    product = Finite x
    /\ Panel.dividerPosition (Panel.state c') = Finite p
    /\ ((x <= 100)%Q -> (p == 100)%Q)
    /\ ((100 <= x)%Q -> (x <= h - 100)%Q -> (p == x)%Q)
    /\ ((h - 100 <= x)%Q -> (p == h - 100)%Q).
Proof.
  intros H200 Hp c' product. unfold c', Panel.calculateInitialPosition.
  cbn [Panel.state Panel.dividerPosition]. fold product.
  assert (exists x, product = Finite x) as [x Hx].
  { unfold product.
    destruct (ratio_finite (Panel.dimensionsCount (Panel.props c))
                (Panel.measuresCount (Panel.props c)) Hp) as [r ->].
    simpl. eauto. }
  rewrite Hx. exists x.
  unfold Panel.dividerConstraints, Panel.MIN_PANEL_SIZE, Math_min, Math_max,
    sub, leb.
  cbn [Panel.minDividerPosition Panel.maxDividerPosition].
  assert (Qle_bool 100 h = true) as E1 by (apply Qle_bool_iff; lra).
  assert (Qle_bool (h - 100) 0 = false) as E2 by (apply Qle_bool_false; lra).
  rewrite E1, E2. unfold Panel.clamp, Math_max, Math_min, leb.
  destruct (Qle_bool x 100) eqn:Ex.
  - apply Qle_bool_iff in Ex.
    assert (Qle_bool 100 (h - 100) = true) as E3 by (apply Qle_bool_iff; lra).
    rewrite E3. exists 100. split; [reflexivity|]. split; [reflexivity|].
    repeat split; intros; lra.
  - apply Qle_bool_false in Ex. destruct (Qle_bool x (h - 100)) eqn:Ey.
    + apply Qle_bool_iff in Ey. exists x. split; [reflexivity|].
      split; [reflexivity|]. repeat split; intros; lra.
    + apply Qle_bool_false in Ey. exists (h - 100)%Q. split; [reflexivity|].
      split; [reflexivity|]. repeat split; intros; lra.
Qed.

Lemma calculateInitialPosition_clamped_product_witness :
  (200 <= 400)%Q /\ (0 < 3 + 1)%nat
  /\ exists x p,
       mul (Finite 400) (div (of_nat 1) (of_nat (3 + 1))) = Finite x
       /\ Panel.dividerPosition
            (Panel.state
               (Panel.calculateInitialPosition
                  (Panel.initial (Panel.mkProps 1 3)) (Some 0%nat) (Finite 400)))
          = Finite p
       /\ ((x <= 100)%Q -> (p == 100)%Q).
Proof.
  assert (200 <= 400)%Q as H by (unfold Qle; simpl; lia).
  split; [exact H|]. split; [lia|].
  destruct (@calculateInitialPosition_clamped_product
              (Panel.initial (Panel.mkProps 1 3)) 0%nat 400 H
              ltac:(simpl; lia)) as (x & p & Hx & Hp & Hlow & _).
  exists x, p. split; [exact Hx|]. split; [exact Hp|exact Hlow].
Defined.

(** ** The formatter with exceptions *)

Section CheckedFacts.

Local Open Scope string_scope.

Lemma bind_Returns_r (A : Type) (c : completion A) : bind c Returns = c.
Proof. destruct c; reflexivity. Qed.

Lemma bind_append_empty (c : completion string) :
  bind c (fun s => Returns (s ++ "")) = c.
Proof. destruct c as [s|e]; simpl; [now rewrite append_empty_r|reflexivity]. Qed.

(** With no valid value the middle number is 0. *)
Lemma getMiddleNumber_all_skipped (values : list number) :
  Forall (fun v => skipped v = true) values ->
  getMiddleNumber values = Finite 0.
Proof.
  intros H. rewrite getMiddleNumber_kept.
  replace (kept values) with (@nil number); [reflexivity|].
  unfold kept. induction H as [|v values Hv _ IH]; [reflexivity|].
  simpl. rewrite Hv. exact IH.
Qed.

(** The joined result of [formatFilterClause]. *)
Definition join_title (title text : string) : string :=
  match title with
  | "" => text
  | String _ _ => title ++ " " ++ text
  end.

(** The slashes of a string MATCH clause and the double quotes of a
    string CONTAINS clause. *)
Definition wrap_text (clause : FilterClause) (text : string) : string :=
  if is_string_action clause MATCH then "/" ++ text ++ "/"
  else if is_string_action clause CONTAINS
       then double_quote ++ text ++ double_quote
       else text.

Lemma wrap_text_steps (clause : FilterClause) (text : string) :
  (if is_string_action clause CONTAINS
   then double_quote
          ++ (if is_string_action clause MATCH then "/" ++ text ++ "/"
              else text)
          ++ double_quote
   else if is_string_action clause MATCH then "/" ++ text ++ "/" else text)
  = wrap_text clause text.
Proof.
  unfold wrap_text.
  destruct clause as [vs|vs|[| |] vs|tc]; reflexivity.
Qed.

Lemma bind_wrap_text (clause : FilterClause) (c : completion string) :
  bind c
    (fun values =>
       Returns
         (if is_string_action clause CONTAINS
          then double_quote
                 ++ (if is_string_action clause MATCH
                     then "/" ++ values ++ "/" else values)
                 ++ double_quote
          else if is_string_action clause MATCH
               then "/" ++ values ++ "/" else values))
  = bind c (fun text => Returns (wrap_text clause text)).
Proof.
  destruct c as [text|e]; cbn [bind]; [now rewrite wrap_text_steps|reflexivity].
Qed.

Section Collaborators.
Variable fraction_toString : Q -> string.
Variable formatTimeRange :
  TimeRange -> option Timezone -> option DisplayYear -> completion string.
Variable TimeRange_fromJS : option DateRange -> completion TimeRange.
Variable STRINGS : Strings.

(** The text of a value that is not a time range: no collaborator is
    called for it. *)
Definition plain_text (value : Value) : string :=
  formatValue fraction_toString (fun _ _ _ => "") value None None.

Lemma checked_formatValue_or_any (bound : option number) :
  Checked.formatValue fraction_toString formatTimeRange (or_any bound)
    None None
  = Returns (render_bound fraction_toString bound).
Proof.
  unfold render_bound, or_any.
  destruct bound as [n|]; [destruct (truthy n)|]; now simp formatValue.
Qed.

Lemma checked_formatValue (value : Value) (timezone : option Timezone)
  (displayYear : option DisplayYear) :
  Checked.formatValue fraction_toString formatTimeRange value timezone
    displayYear
  = match value with
    | VTimeRange r => formatTimeRange r timezone displayYear
    | _ => Returns (plain_text value)
    end.
Proof.
  unfold plain_text. destruct value; simp formatValue; try reflexivity.
  rewrite !checked_formatValue_or_any. cbn [bind].
  fold (formatNumberRange fraction_toString (fun _ _ _ => "") r).
  now rewrite formatNumberRange_bounds.
Qed.

(** The text of a collection that does not consist of one time range. *)
Definition plain_count_or_value (values : list Value) : string :=
  if Nat.ltb 1 (List.length values)
  then "(" ++ decimal (Z.of_nat (List.length values)) ++ ")"
  else plain_text (first values).

Lemma checked_getFilterClauseValues (clause : FilterClause)
  (timezone : Timezone) :
  Checked.getFilterClauseValues fraction_toString formatTimeRange
    TimeRange_fromJS STRINGS clause timezone
  = match clause with
    | TimeFilter (FixedTimeFilterClause ranges) =>
        bind (TimeRange_fromJS (nth_error ranges 0))
          (fun range =>
             formatTimeRange range (Some timezone) (Some IF_DIFF))
    | TimeFilter (RelativeTimeFilterClause period duration) =>
        Returns (period_word STRINGS period ++ " "
                   ++ getQualifiedDurationDescription STRINGS duration)
    | _ =>
        match clause_values clause with
        | [VTimeRange r] =>
            bind (formatTimeRange r None None)
              (fun text => Returns (wrap_text clause text))
        | values => Returns (wrap_text clause (plain_count_or_value values))
        end
    end.
Proof.
  unfold Checked.getFilterClauseValues.
  destruct clause as [vs|vs|action vs|[ranges|period duration]];
    cbn [as_time_filter clause_values Checked.getFormattedTimeClauseValues].
  4: reflexivity.
  4: destruct period; reflexivity.
  all: unfold plain_count_or_value;
    destruct vs as [|v [|w vs]];
    cbn [List.length Nat.ltb Nat.leb first];
    rewrite ?checked_formatValue, bind_wrap_text;
    try (destruct v; reflexivity); reflexivity.
Qed.

End Collaborators.

End CheckedFacts.

Section CheckedAgreement.

Local Open Scope string_scope.

Variable fraction_toString : Q -> string.
Variable formatTimeRange :
  TimeRange -> option Timezone -> option DisplayYear -> string.
Variable TimeRange_fromJS : option DateRange -> TimeRange.
Variable STRINGS : Strings.

Lemma plain_text_formatValue (value : Value) :
  match value with
  | VTimeRange _ => True
  | _ =>
      plain_text fraction_toString value
      = formatValue fraction_toString formatTimeRange value None None
  end.
Proof.
  unfold plain_text. destruct value; simp formatValue; try reflexivity.
  fold (formatNumberRange fraction_toString (fun _ _ _ => "") r).
  fold (formatNumberRange fraction_toString formatTimeRange r).
  now rewrite !formatNumberRange_bounds.
Qed.

(** When the functions called outside the file return, the formatter
    with exceptions returns what the formatter without them computes. *)
Lemma checked_formatFilterClause_returns (dimension : Dimension)
  (clause : FilterClause) (timezone : Timezone) :
  let formatTimeRange' r tz dy := Returns (formatTimeRange r tz dy) in
  let TimeRange_fromJS' v := Returns (TimeRange_fromJS v) in
  Checked.formatFilterClause
    (Some (Checked.exports fraction_toString formatTimeRange'
             TimeRange_fromJS' STRINGS))
    dimension clause timezone
  = Returns
      (formatFilterClause fraction_toString formatTimeRange TimeRange_fromJS
         STRINGS dimension clause timezone).
Proof.
  intros ftr' fromJS'. unfold Checked.formatFilterClause, Checked.exports.
  cbn [Checked.exports_getFormattedClause]. unfold Checked.getFormattedClause.
  rewrite checked_getFilterClauseValues.
  unfold formatFilterClause, getFormattedClause, getFilterClauseValues.
  cbn [clause_title clause_text].
  destruct clause as [vs|vs|action vs|[ranges|period duration]];
    cbn [as_time_filter clause_values getFormattedTimeClauseValues].
  4: reflexivity.
  4: destruct period; reflexivity.
  all: destruct vs as [|v [|w vs]]; cbn [List.length Nat.ltb Nat.leb first];
    unfold plain_count_or_value; cbn [List.length Nat.ltb Nat.leb first];
    try (pose proof (plain_text_formatValue v) as Hv; destruct v;
         unfold ftr'; cbn [bind clause_title clause_text];
         rewrite ?Hv, <- ?wrap_text_steps; simp formatValue; reflexivity);
    try (pose proof (plain_text_formatValue VUndefined) as Hv;
         cbn [bind clause_title clause_text];
         rewrite ?Hv, <- ?wrap_text_steps; reflexivity);
    cbn [bind clause_title clause_text]; rewrite <- ?wrap_text_steps;
    reflexivity.
Qed.

End CheckedAgreement.

(** Stand-ins for what the formatter calls outside the file. *)

(** Plywood's [TimeRange.fromJS], which refuses a parameter that is not
    an object. *)
Definition fromJS_refusing_undefined (v : option DateRange)
  : completion TimeRange :=
  match v with
  | None => Throws "unrecognizable timeRange"%string
  | Some r =>
      Returns (mkTimeRange (Some (date_start r)) (Some (date_end r)) "[)"%string)
  end.

Definition time_range_text (r : TimeRange) (timezone : option Timezone)
  (displayYear : option DisplayYear) : completion string :=
  Returns "range"%string.

(** A number-formatting library with three behaviours of numeral: under
    "0 a" and "0 b" it renders 0 as "0 " (no unit after the space); it
    throws on [NaN] and on finite numbers from 10^21 on (whose fixed
    notation has no decimal part to read); anything else is given back as
    the format string. *)
Definition numeral_stand_in (n : number) (fmt : string) : completion string :=
  match n with
  | NaN => Throws TypeError
  | Infinity _ => Returns fmt
  | Finite q =>
      if Qle_bool 1000000000000000000000 (Qabs q) then Throws TypeError
      else if Qeq_bool q 0
                && (String.eqb fmt "0 a" || String.eqb fmt "0 b")
           then Returns "0 "%string
           else Returns fmt
  end.

(** C1 (as amended).  Called as a method of the formatter module,
    [formatFilterClause] returns a string whenever the functions it
    reaches outside the file return, and throws what they throw
    otherwise: [TimeRange.fromJS] and [formatTimeRange] for a fixed time
    filter, [formatTimeRange] for a clause whose single value is a time
    range, none for any other clause.  The string is the text of the
    clause alone when the title that [getFormattedClause] computes is
    empty, and otherwise the title, one space and the text. *)
Theorem formatFilterClause_on_module
  (fraction_toString : Q -> string)
  (formatTimeRange :
     TimeRange -> option Timezone -> option DisplayYear -> completion string)
  (TimeRange_fromJS : option DateRange -> completion TimeRange)
  (STRINGS : Strings)
  (dimension : Dimension) (clause : FilterClause) (timezone : Timezone) :
  let module :=
    Checked.exports fraction_toString formatTimeRange TimeRange_fromJS STRINGS in
  let result :=
    Checked.formatFilterClause (Some module) dimension clause timezone in
  let title := getClauseLabel clause dimension in
  match clause with
  | TimeFilter (FixedTimeFilterClause ranges) =>
      title = EmptyString
      /\ result
         = bind (TimeRange_fromJS (nth_error ranges 0))
             (fun range =>
                formatTimeRange range (Some timezone) (Some IF_DIFF))
  | TimeFilter (RelativeTimeFilterClause period duration) =>
      title = EmptyString
      /\ result
         = Returns (period_word STRINGS period ++ " "
                      ++ getQualifiedDurationDescription STRINGS duration)%string
  | _ =>
      match clause_values clause with
      | [VTimeRange r] =>
          result
          = bind (formatTimeRange r None None)
              (fun text => Returns (join_title title (wrap_text clause text)))
      | values =>
          result
          = Returns
              (join_title title
                 (wrap_text clause
                    (plain_count_or_value fraction_toString values)))
      end
  end.
Proof.
  intros module result title.
  assert (result
          = bind (Checked.getFilterClauseValues fraction_toString
                    formatTimeRange TimeRange_fromJS STRINGS clause timezone)
              (fun text => Returns (join_title title text))) as E.
  { unfold result, module, Checked.formatFilterClause, Checked.exports.
    cbn [Checked.exports_getFormattedClause].
    unfold Checked.getFormattedClause. fold title.
    destruct (Checked.getFilterClauseValues _ _ _ _ _ _) as [text|e];
      [|reflexivity].
    cbn [bind clause_title clause_text]. unfold join_title.
    destruct title; reflexivity. }
  rewrite E, checked_getFilterClauseValues. unfold title.
  destruct clause as [vs|vs|action vs|[ranges|period duration]].
  4: { split; [reflexivity|].
       destruct (TimeRange_fromJS (nth_error ranges 0)) as [range|e];
         [|reflexivity].
       cbn [bind]. apply bind_Returns_r. }
  4: { split; reflexivity. }
  all: cbn [clause_values]; destruct vs as [|v [|w vs]];
    try (destruct v; try reflexivity;
         destruct (formatTimeRange r None None); reflexivity);
    reflexivity.
Qed.

(** C1 (as stated).  A call of the function on its own throws a
    [TypeError] whatever the clause, and a call through the module throws
    for a fixed time filter without any range, which
    [TimeRange.fromJS] refuses. *)
Lemma formatFilterClause_throws :
  Checked.formatFilterClause None (mkDimension "Page"%string)
    (StringFilterClause IN [VString "a"%string]) "Etc/UTC"%string
  = Throws TypeError
  /\ Checked.formatFilterClause
       (Some (Checked.exports no_fraction time_range_text
                fromJS_refusing_undefined strings_en))
       (mkDimension "Time"%string) (TimeFilter (FixedTimeFilterClause []))
       "Etc/UTC"%string
     = Throws "unrecognizable timeRange"%string.
Proof. split; reflexivity. Qed.

Example formatFilterClause_on_module_fixed :
  Checked.formatFilterClause
    (Some (Checked.exports no_fraction time_range_text
             fromJS_refusing_undefined strings_en))
    (mkDimension "Time"%string)
    (TimeFilter (FixedTimeFilterClause [mkDateRange 0%Z 86400000%Z]))
    "Etc/UTC"%string
  = Returns "range"%string.
Proof. reflexivity. Qed.

(** C7 (as amended).  Whatever the format string and the values, a
    formatter that [formatterFromData] returns gives "-" for [NaN] and
    for both infinities without calling the library; and when the format
    string does not match the pattern, a formatter is returned that hands
    every finite input to the number-formatting library with the format
    string as it is, returning what the library returns and throwing
    what it throws. *)
Theorem formatterFromData_fallback_checked
  (numeral_format : number -> string -> completion string)
  (values : list number) (format : string) :
  (forall formatter,
     Checked.formatterFromData numeral_format values format = Returns formatter ->
     formatter NaN = Returns "-"%string
     /\ formatter (Infinity false) = Returns "-"%string
     /\ formatter (Infinity true) = Returns "-"%string)
  /\ ((forall numberFormat space t,
         ~ format_matches format numberFormat space t) ->
      exists formatter,
        Checked.formatterFromData numeral_format values format
        = Returns formatter
        /\ forall q : Q,
             formatter (Finite q) = numeral_format (Finite q) format).
Proof.
  unfold Checked.formatterFromData. split.
  - intros formatter.
    destruct (format_match format) as [[[nf sp] t]|].
    + destruct (numeral_format _ _) as [rendering|e]; [|discriminate].
      cbn [bind]. intros [= <-]. repeat split.
    + intros [= <-]. repeat split.
  - intros H. apply format_match_None in H. rewrite H.
    eexists. split; [reflexivity|]. reflexivity.
Qed.

Lemma formatterFromData_fallback_checked_witness :
  (forall numberFormat space t,
     ~ format_matches "0.0" numberFormat space t)
  /\ exists formatter,
       Checked.formatterFromData numeral_stand_in [Finite 1] "0.0"
       = Returns formatter
       /\ formatter (Finite 2) = Returns "0.0"%string
       /\ formatter NaN = Returns "-"%string.
Proof.
  assert (forall numberFormat space t,
            ~ format_matches "0.0" numberFormat space t) as H.
  { apply format_match_None. reflexivity. }
  split; [exact H|].
  destruct (proj2 (formatterFromData_fallback_checked numeral_stand_in
                     [Finite 1] "0.0") H) as (formatter & Hf & Hq).
  exists formatter. split; [exact Hf|]. split; [apply Hq|].
  apply (proj1 (formatterFromData_fallback_checked numeral_stand_in
                  [Finite 1] "0.0") formatter Hf).
Defined.

(** C7 (as stated).  Under the format "0.0", which does not match the
    pattern, the formatter fails on the finite input 10^21 when the
    library does. *)
Lemma formatterFromData_fallback_fails :
  format_match "0.0" = None
  /\ exists formatter,
       Checked.formatterFromData numeral_stand_in [] "0.0" = Returns formatter
       /\ formatter (Finite 1000000000000000000000) = Throws TypeError.
Proof.
  split; [reflexivity|]. eexists. split; reflexivity.
Qed.

Section EmptyUnit.

Local Open Scope string_scope.

Variable numeral_format : number -> string -> completion string.

Lemma checked_formatterFromData_empty_unit (values : list number)
  (format numberFormat space rendering : string) (formatType : FormatType) :
  format_matches format numberFormat space formatType ->
  numeral_format (getMiddleNumber values)
    ("0 " ++ FormatType_string formatType) = Returns rendering ->
  second_or_empty (split_space rendering) = "" ->
  exists formatter,
    Checked.formatterFromData numeral_format values format = Returns formatter
    /\ forall q : Q,
         formatter (Finite q)
         = numeral_format
             (match formatType with
              | type_a => Finite (q / 1)
              | type_b => NaN
              end) numberFormat.
Proof.
  intros Hm Hr Hu. apply format_match_complete in Hm.
  unfold Checked.formatterFromData. rewrite Hm, Hr. cbn [bind]. rewrite Hu.
  eexists. split; [reflexivity|]. intros q.
  cbn [isNaN isFinite negb orb nonempty]. rewrite bind_append_empty.
  destruct formatType; reflexivity.
Qed.

End EmptyUnit.

(** C8 (at the failing input).  With format type [b] and no valid value,
    the middle number is 0; when the library renders it as "0 ", without
    a unit after the space, the table of format type [b] has no scale for
    the empty unit (the table of format type [a] has one), and the
    formatter that is returned hands [NaN], not the input divided by a
    scale, to the library for every finite input. *)
Theorem formatterFromData_bytes_without_values
  (numeral_format : number -> string -> completion string)
  (values : list number) (format numberFormat space : string) :
  format_matches format numberFormat space type_b ->
  Forall (fun v => skipped v = true) values ->
  numeral_format (Finite 0) "0 b"%string = Returns "0 "%string ->
  scales type_b EmptyString = None
  /\ scales type_a EmptyString = Some 1
  /\ exists formatter,
       Checked.formatterFromData numeral_format values format
       = Returns formatter
       /\ forall q : Q,
            formatter (Finite q) = numeral_format NaN numberFormat.
Proof.
  intros Hm Hv Hr. split; [reflexivity|]. split; [reflexivity|].
  apply (@checked_formatterFromData_empty_unit numeral_format values format
           numberFormat space "0 "%string type_b Hm);
    [|reflexivity].
  rewrite (getMiddleNumber_all_skipped Hv). exact Hr.
Qed.

Lemma formatterFromData_bytes_without_values_witness :
  format_matches "0.0 b" "0.0" " " type_b
  /\ exists formatter,
       Checked.formatterFromData numeral_stand_in [] "0.0 b" = Returns formatter
       /\ formatter (Finite 5) = Throws TypeError.
Proof.
  assert (format_matches "0.0 b" "0.0" " " type_b) as H.
  { apply format_match_spec. reflexivity. }
  split; [exact H|].
  destruct (proj2 (proj2 (@formatterFromData_bytes_without_values
                            numeral_stand_in [] "0.0 b" "0.0" " " H
                            (Forall_nil _) eq_refl)))
    as (formatter & Hf & Hq).
  exists formatter. split; [exact Hf|]. rewrite Hq. reflexivity.
Defined.

(** X6.  When the pattern matches and the library's rendering of the
    middle number has no second word (no space at all, or nothing after
    the space, as in "5 "), the unit is empty and nothing is appended:
    with format type [a] every finite input is handed to the library
    divided by the scale 1; with format type [b] the table has no entry
    for the empty unit, and [NaN] is handed to the library for every
    finite input. *)
Theorem formatterFromData_empty_unit
  (numeral_format : number -> string -> completion string)
  (values : list number) (format numberFormat space rendering body : string)
  (formatType : FormatType) :
  format_matches format numberFormat space formatType ->
  numeral_format (getMiddleNumber values)
    ("0 " ++ FormatType_string formatType)%string = Returns rendering ->
  no_space body = true ->
  rendering = body \/ rendering = (body ++ " ")%string ->
  exists formatter,
    Checked.formatterFromData numeral_format values format = Returns formatter
    /\ forall q : Q,
         formatter (Finite q)
         = numeral_format
             (match formatType with
              | type_a => Finite (q / 1)
              | type_b => NaN
              end) numberFormat.
Proof.
  intros Hm Hr Hb Hshape.
  apply (@checked_formatterFromData_empty_unit numeral_format values format
           numberFormat space rendering formatType Hm Hr).
  destruct Hshape as [-> | ->].
  - now rewrite split_space_no_space.
  - change (body ++ " ")%string with (body ++ " " ++ "")%string.
    now rewrite split_space_first.
Qed.

Lemma formatterFromData_empty_unit_witness :
  format_matches "0.0a" "0.0" "" type_a
  /\ exists formatter,
       Checked.formatterFromData numeral_stand_in [] "0.0a" = Returns formatter
       /\ formatter (Finite 5) = Returns "0.0"%string.
Proof.
  assert (format_matches "0.0a" "0.0" "" type_a) as H.
  { apply format_match_spec. reflexivity. }
  split; [exact H|].
  destruct (@formatterFromData_empty_unit numeral_stand_in [] "0.0a" "0.0" ""
              "0 " "0" type_a H eq_refl eq_refl (or_intror eq_refl))
    as (formatter & Hf & Hq).
  exists formatter. split; [exact Hf|]. rewrite Hq. reflexivity.
Defined.

(** When the library returns on every call, the formatter with exceptions
    is returned and returns what the formatter without them computes. *)
Lemma checked_formatterFromData_returns
  (numeral_format : number -> string -> string)
  (values : list number) (format : string) :
  exists formatter,
    Checked.formatterFromData (fun n fmt => Returns (numeral_format n fmt))
      values format = Returns formatter
    /\ forall n,
         formatter n = Returns (formatterFromData numeral_format values format n).
Proof.
  unfold Checked.formatterFromData, formatterFromData.
  destruct (format_match format) as [[[nf sp] t]|]; cbn [bind];
    eexists; (split; [reflexivity|]); intros n; cbv beta;
    destruct (isNaN n || negb (isFinite n)); reflexivity.
Qed.
